(** * Job model of the job-board backend: src/models/job.js

    The module turns caller-supplied criteria into parameterised SQL and
    runs it through [db.query].  The development has three layers:

    - [Js]: the JavaScript values the module handles, with truthiness, unary
      plus and template-literal conversion;
    - [Sql]: the tables, the statements the module issues and their
      relational meaning (the storage engine is external to the module, its
      text-input and pattern functions are the methods of [Host]);
    - [Job]: the static methods of the class, written in a state-and-error
      monad over the storage, followed by the properties proved of them. *)

From Stdlib Require Import ZArith QArith String Ascii List DecimalString.
From Stdlib Require Import Sorted Permutation Lia.
From stdpp Require Import gmap strings list sorting.

Local Open Scope string_scope.
Local Open Scope Z_scope.

(** ** JavaScript values *)

Module Js.

(** A JS number: a rational, or NaN.  Infinities and the sign of zero play
    no part in this module. *)
Inductive number : Type :=
| NaN
| Num (q : Q).

Inductive value : Type :=
| VUndef
| VNull
| VBool (b : bool)
| VNum (n : number)
| VStr (s : string).

Definition of_Z (z : Z) : number := Num (inject_Z z).
Definition VInt (z : Z) : value := VNum (of_Z z).

(** What the language runtime and the storage engine supply: conversions
    between text and numbers, and the engine's ILIKE operator. *)
Class Host : Type := {
  (** ECMAScript StringToNumber, used by unary plus on a string *)
  string_to_number : string -> number;
  (** ECMAScript Number::toString, used by template literals *)
  number_to_string : number -> string;
  (** the engine's input function for numeric columns *)
  numeric_in : string -> option number;
  (** the engine's input function for integer columns *)
  integer_in : string -> option Z;
  (** [ilike text pattern]: the engine's case-insensitive LIKE *)
  ilike : string -> string -> bool
}.

(** ToBoolean, as taken by [if (x)] and [!x]. *)
Definition truthy (v : value) : bool :=
  match v with
  | VUndef | VNull => false
  | VBool b => b
  | VNum NaN => false
  | VNum (Num q) => negb (Qnum q =? 0)
  | VStr s => negb (String.eqb s "")
  end.

(** ToNumber, as taken by unary plus. *)
Definition to_number `{Host} (v : value) : number :=
  match v with
  | VUndef => NaN
  | VNull => of_Z 0
  | VBool true => of_Z 1
  | VBool false => of_Z 0
  | VNum n => n
  | VStr s => string_to_number s
  end.

(** ToString, as taken by a template literal. *)
Definition to_string `{Host} (v : value) : string :=
  match v with
  | VUndef => "undefined"
  | VNull => "null"
  | VBool true => "true"
  | VBool false => "false"
  | VNum n => number_to_string n
  | VStr s => s
  end.

(** The decimal text of an array length or of an integer identifier. *)
Definition string_of_nat (n : nat) : string :=
  NilEmpty.string_of_uint (Nat.to_uint n).

Definition string_of_Z (z : Z) : string :=
  NilEmpty.string_of_int (Z.to_int z).

(** A plain object: property names to values.  Reading a property that
    is not there gives [undefined]. *)
Definition get (o : gmap string value) (k : string) : value :=
  default VUndef (o !! k).

(** Array.prototype.join on an array of strings. *)
Definition join (sep : string) (l : list string) : string :=
  String.concat sep l.

End Js.

Import Js.

(** ** Errors, results and rows *)

(** What [db.query] rejects with. *)
Inductive db_error : Type :=
| SyntaxError
| UndefinedColumn (column : string)
| AmbiguousAssignment (column : string)
| ParameterCount
| InvalidText
| NegativeOffset
| NegativeLimit
| NotNullViolation (column : string)
| UniqueViolation
| ForeignKeyViolation
| Unsupported.

(** What a method of the class throws. *)
Inductive exn : Type :=
| JsError (message : string) (status : Z)
    (** [new Error(message)] given a [status] field before it is thrown *)
| ValidationError
    (** thrown by the partial-update helper *)
| TypeError
    (** a property read on [undefined] *)
| DbError (e : db_error).

Inductive result (A : Type) : Type :=
| Ok (a : A)
| Err (e : exn).
Arguments Ok {A} a.
Arguments Err {A} e.

(** A row as the driver hands it over: column names to values. *)
Definition row : Type := list (string * value).

Fixpoint row_get (r : row) (k : string) : value :=
  match r with
  | [] => VUndef
  | (c, v) :: r' => if String.eqb c k then v else row_get r' k
  end.

(** Keep the listed columns of a row, in the order listed. *)
Definition restrict (cols : list string) (r : row) : row :=
  map (fun c => (c, row_get r c)) cols.

Definition rbind {A B} (r : result A) (k : A -> result B) : result B :=
  match r with
  | Ok a => k a
  | Err e => Err e
  end.

Notation "x <-? c1 ;; c2" := (rbind c1 (fun x => c2))
  (at level 100, c1 at next level, right associativity).

Fixpoint rmap {A B} (f : A -> result B) (l : list A) : result (list B) :=
  match l with
  | [] => Ok []
  | a :: l' => b <-? f a ;; bs <-? rmap f l' ;; Ok (b :: bs)
  end.

(** ** The storage and the statements run against it *)

Module Sql.

(** Modelled from the spec: the persisted schema (section 6) is not part
    of the sources.  [jobs(id PK generated, title, salary, equity,
    company_handle FK)], [companies(handle PK, name, num_employees,
    description, logo_url)], [applications(job_id FK, username, state)].
    Salary and equity are nullable, the company handle is required. *)
Record job : Type := {
  j_id : Z;
  j_title : string;
  j_salary : option number;
  j_equity : option number;
  j_company_handle : string
}.

Record company : Type := {
  c_handle : string;
  c_name : string;
  c_num_employees : option Z;
  c_description : option string;
  c_logo_url : option string
}.

Record application : Type := {
  a_job_id : Z;
  a_username : string;
  a_state : option string
}.

Record database : Type := {
  jobs : list job;
  companies : list company;
  applications : list application;
  (** the value the generator of [jobs.id] hands out next *)
  jobs_id_seq : Z
}.

(** The text of a statement, parameters apart.  Each constructor is one
    [db.query] call site of the class; the two statements put together at
    run time carry what varies. *)
Inductive operator : Type := Ge | ILike.

Record predicate : Type := {
  p_column : string;
  p_operator : operator;
  p_param : nat
}.

Inductive statement : Type :=
| SelectUserJobs
| SelectJobs (conds : list predicate)
| SelectJobsPage
| CountJobs
| SelectJob
| SelectCompany
| InsertJob
| Update (table : string) (columns : list string) (key : string)
| DeleteJob
| SelectJobId
| InsertApplication
| DeleteApplication.

(** *** Values in and out *)

Definition opt_num (o : option number) : value :=
  match o with Some n => VNum n | None => VNull end.
Definition opt_int (o : option Z) : value :=
  match o with Some z => VInt z | None => VNull end.
Definition opt_str (o : option string) : value :=
  match o with Some s => VStr s | None => VNull end.

Section Binding.
Context `{Host}.

(** A parameter bound where text is expected; [None] is NULL.  The
    driver sends numbers and booleans as their text. *)
Definition text_param (v : value) : option string :=
  match v with
  | VUndef | VNull => None
  | VBool true => Some "true"
  | VBool false => Some "false"
  | VNum n => Some (number_to_string n)
  | VStr s => Some s
  end.

(** A parameter bound where a numeric value is expected. *)
Definition numeric_param (v : value) : result (option number) :=
  match v with
  | VUndef | VNull => Ok None
  | VBool _ => Err (DbError InvalidText)
  | VNum n => Ok (Some n)
  | VStr s =>
      match numeric_in s with
      | Some n => Ok (Some n)
      | None => Err (DbError InvalidText)
      end
  end.

(** A parameter bound where an integer is expected. *)
Definition integer_param (v : value) : result (option Z) :=
  match v with
  | VUndef | VNull => Ok None
  | VBool _ | VNum NaN => Err (DbError InvalidText)
  | VNum (Num q) =>
      if (Qnum q mod Zpos (Qden q) =? 0)
      then Ok (Some (Qnum q / Zpos (Qden q)))
      else Err (DbError InvalidText)
  | VStr s =>
      match integer_in s with
      | Some z => Ok (Some z)
      | None => Err (DbError InvalidText)
      end
  end.

(** The [k]-th positional parameter, [$k]. *)
Definition param (values : list value) (k : nat) : result value :=
  match k with
  | O => Err (DbError SyntaxError)
  | S k' =>
      match values !! k' with
      | Some v => Ok v
      | None => Err (DbError ParameterCount)
      end
  end.

(** A statement takes exactly as many values as it has parameters. *)
Definition arity_is (n : nat) (values : list value) : result unit :=
  if Nat.eqb (length values) n then Ok tt else Err (DbError ParameterCount).

End Binding.

(** *** The FROM clause shared by the listings *)

Definition left_join {A B} (on : A -> B -> bool) (l : list A) (r : list B)
  : list (A * option B) :=
  flat_map (fun a =>
    match List.filter (on a) r with
    | [] => [(a, None)]
    | b :: m => map (fun b => (a, Some b)) (b :: m)
    end) l.

Definition inner_join {A B} (on : A -> B -> bool) (l : list A) (r : list B)
  : list (A * B) :=
  flat_map (fun a => map (fun b => (a, b)) (List.filter (on a) r)) l.

(** One row of [jobs LEFT JOIN companies LEFT OUTER JOIN applications]. *)
Record joined : Type := {
  jr_job : job;
  jr_company : option company;
  jr_app : option application
}.

(** [ON company_handle = c.handle] *)
Definition on_company (j : job) (c : company) : bool :=
  String.eqb (j_company_handle j) (c_handle c).

(** [ON a.job_id = id AND a.username = $1]; a NULL parameter matches no
    row. *)
Definition on_application (u : option string) (jc : job * option company)
  (a : application) : bool :=
  match u with
  | Some s => (a_job_id a =? j_id (fst jc)) && String.eqb (a_username a) s
  | None => false
  end.

Definition jobs_joined (d : database) (u : option string) : list joined :=
  map (fun x => {| jr_job := fst (fst x); jr_company := snd (fst x); jr_app := snd x |})
    (left_join (on_application u)
       (left_join on_company (jobs d) (companies d)) (applications d)).

(** Every column in scope of that FROM clause, by its unqualified name. *)
Definition columns (r : joined) : row :=
  [ ("id", VInt (j_id (jr_job r)));
    ("title", VStr (j_title (jr_job r)));
    ("salary", opt_num (j_salary (jr_job r)));
    ("equity", opt_num (j_equity (jr_job r)));
    ("company_handle", VStr (j_company_handle (jr_job r)));
    ("handle", opt_str (c_handle <$> jr_company r));
    ("name", opt_str (c_name <$> jr_company r));
    ("num_employees", opt_int (jr_company r ≫= c_num_employees));
    ("description", opt_str (jr_company r ≫= c_description));
    ("logo_url", opt_str (jr_company r ≫= c_logo_url));
    ("job_id", opt_int (a_job_id <$> jr_app r));
    ("username", opt_str (a_username <$> jr_app r));
    ("state", opt_str (jr_app r ≫= a_state)) ].

Inductive sqltype : Type := TInteger | TNumeric | TText.

Definition column_type (c : string) : option sqltype :=
  if existsb (String.eqb c) ["id"; "num_employees"; "job_id"] then Some TInteger
  else if existsb (String.eqb c) ["salary"; "equity"] then Some TNumeric
  else if existsb (String.eqb c)
            ["title"; "company_handle"; "handle"; "name"; "description";
             "logo_url"; "username"; "state"] then Some TText
  else None.

(** The engine orders NaN above every number. *)
Definition number_ge (x y : number) : bool :=
  match x, y with
  | NaN, _ => true
  | Num _, NaN => false
  | Num a, Num b => Qle_bool b a
  end.

(** [ORDER BY id] *)
Definition by_id (x y : joined) : Prop := j_id (jr_job x) <= j_id (jr_job y).

#[global] Instance by_id_dec x y : Decision (by_id x y) :=
  Z_le_dec (j_id (jr_job x)) (j_id (jr_job y)).

Section Execution.
Context `{Host}.

(** *** WHERE clauses put together at run time *)

(** Name resolution: done when the statement is parsed. *)
Definition resolve (p : predicate) : result sqltype :=
  match column_type (p_column p) with
  | Some t => Ok t
  | None => Err (DbError (UndefinedColumn (p_column p)))
  end.

(** Typing and binding of one predicate. *)
Definition bind_predicate (values : list value) (p : predicate) : result unit :=
  v <-? param values (p_param p) ;;
  match p_operator p, column_type (p_column p) with
  | _, None => Err (DbError (UndefinedColumn (p_column p)))
  | Ge, Some TText | ILike, Some TInteger | ILike, Some TNumeric =>
      Err (DbError Unsupported)
  | Ge, Some _ => _ <-? numeric_param v ;; Ok tt
  | ILike, Some TText => Ok tt
  end.

(** The truth of one predicate on one row; NULL on either side is not
    true. *)
Definition holds (values : list value) (r : joined) (p : predicate) : bool :=
  match param values (p_param p) with
  | Ok v =>
      match p_operator p with
      | Ge =>
          match row_get (columns r) (p_column p), numeric_param v with
          | VNum x, Ok (Some y) => number_ge x y
          | _, _ => false
          end
      | ILike =>
          match row_get (columns r) (p_column p), text_param v with
          | VStr s, Some pattern => ilike s pattern
          | _, _ => false
          end
      end
  | Err _ => false
  end.

(** Parameters run from [$1], which the join uses, to the highest one a
    predicate names. *)
Definition parameters (conds : list predicate) : nat :=
  fold_right Nat.max 1%nat (map p_param conds).

(** *** Result columns *)

(** [SELECT id, title, company_handle, salary, equity, c.name, a.state] *)
Definition listing_row (r : joined) : row :=
  [ ("id", VInt (j_id (jr_job r)));
    ("title", VStr (j_title (jr_job r)));
    ("company_handle", VStr (j_company_handle (jr_job r)));
    ("salary", opt_num (j_salary (jr_job r)));
    ("equity", opt_num (j_equity (jr_job r)));
    ("name", opt_str (c_name <$> jr_company r));
    ("state", opt_str (jr_app r ≫= a_state)) ].

(** [SELECT id, title, company_handle, salary, equity,
    c.name as company_name, a.state, a.username] *)
Definition user_job_row (r : joined) : row :=
  [ ("id", VInt (j_id (jr_job r)));
    ("title", VStr (j_title (jr_job r)));
    ("company_handle", VStr (j_company_handle (jr_job r)));
    ("salary", opt_num (j_salary (jr_job r)));
    ("equity", opt_num (j_equity (jr_job r)));
    ("company_name", opt_str (c_name <$> jr_company r));
    ("state", opt_str (jr_app r ≫= a_state));
    ("username", opt_str (a_username <$> jr_app r)) ].

(** [SELECT id, title, salary, equity, company_handle, c.name] *)
Definition job_row (jc : job * company) : row :=
  [ ("id", VInt (j_id (fst jc)));
    ("title", VStr (j_title (fst jc)));
    ("salary", opt_num (j_salary (fst jc)));
    ("equity", opt_num (j_equity (fst jc)));
    ("company_handle", VStr (j_company_handle (fst jc)));
    ("name", VStr (c_name (snd jc))) ].

(** [RETURNING id, title, salary, equity, company_handle], which is
    also every column of [jobs]. *)
Definition returned_job (j : job) : row :=
  [ ("id", VInt (j_id j));
    ("title", VStr (j_title j));
    ("salary", opt_num (j_salary j));
    ("equity", opt_num (j_equity j));
    ("company_handle", VStr (j_company_handle j)) ].

(** [SELECT name, num_employees, description, logo_url] *)
Definition company_row (c : company) : row :=
  [ ("name", VStr (c_name c));
    ("num_employees", opt_int (c_num_employees c));
    ("description", opt_str (c_description c));
    ("logo_url", opt_str (c_logo_url c)) ].

(** *** Reading statements *)

Definition same_id (k : option Z) (z : Z) : bool :=
  match k with Some i => z =? i | None => false end.

Definition same_text (k : option string) (s : string) : bool :=
  match k with Some t => String.eqb s t | None => false end.

(** [... WHERE a.username = $1] of [findUserJobs]. *)
Definition select_user_jobs (values : list value) (d : database)
  : result (list row) :=
  _ <-? arity_is 1 values ;;
  u <-? param values 1 ;;
  Ok (map user_job_row
        (List.filter
           (fun r => match jr_app r with
                     | Some a => same_text (text_param u) (a_username a)
                     | None => false
                     end)
           (jobs_joined d (text_param u)))).

(** The listing of [findAll], with the predicates it was given. *)
Definition select_jobs (conds : list predicate) (values : list value)
  (d : database) : result (list row) :=
  _ <-? rmap resolve conds ;;
  _ <-? arity_is (parameters conds) values ;;
  _ <-? rmap (bind_predicate values) conds ;;
  u <-? param values 1 ;;
  Ok (map listing_row
        (List.filter (fun r => forallb (holds values r) conds)
           (jobs_joined d (text_param u)))).

Definition non_negative (e : db_error) (k : option Z) : result unit :=
  match k with
  | Some z => if z <? 0 then Err (DbError e) else Ok tt
  | None => Ok tt
  end.

Definition offset_rows {A} (k : option Z) (l : list A) : list A :=
  match k with Some z => skipn (Z.to_nat z) l | None => l end.

Definition limit_rows {A} (k : option Z) (l : list A) : list A :=
  match k with Some z => firstn (Z.to_nat z) l | None => l end.

(** [... ORDER BY id OFFSET $2 LIMIT $3] of [findSome]. *)
Definition select_jobs_page (values : list value) (d : database)
  : result (list row) :=
  _ <-? arity_is 3 values ;;
  u <-? param values 1 ;;
  o <-? param values 2 ;;
  a <-? param values 3 ;;
  off <-? integer_param o ;;
  lim <-? integer_param a ;;
  _ <-? non_negative NegativeOffset off ;;
  _ <-? non_negative NegativeLimit lim ;;
  Ok (map listing_row
        (limit_rows lim
           (offset_rows off
              (merge_sort by_id (jobs_joined d (text_param u)))))).

(** [SELECT COUNT( * ) FROM jobs] *)
Definition count_jobs (values : list value) (d : database) : result (list row) :=
  _ <-? arity_is 0 values ;;
  Ok [[("count", VInt (Z.of_nat (length (jobs d))))]].

(** [... FROM jobs JOIN companies AS c ON company_handle = c.handle
    WHERE id = $1] *)
Definition select_job (values : list value) (d : database) : result (list row) :=
  _ <-? arity_is 1 values ;;
  v <-? param values 1 ;;
  k <-? integer_param v ;;
  Ok (map job_row
        (List.filter (fun jc => same_id k (j_id (fst jc)))
           (inner_join on_company (jobs d) (companies d)))).

(** [... FROM companies WHERE handle = $1] *)
Definition select_company (values : list value) (d : database)
  : result (list row) :=
  _ <-? arity_is 1 values ;;
  v <-? param values 1 ;;
  Ok (map company_row
        (List.filter (fun c => same_text (text_param v) (c_handle c))
           (companies d))).

(** [SELECT id FROM jobs WHERE id = $1] *)
Definition select_job_id (values : list value) (d : database)
  : result (list row) :=
  _ <-? arity_is 1 values ;;
  v <-? param values 1 ;;
  k <-? integer_param v ;;
  Ok (map (fun j => [("id", VInt (j_id j))])
        (List.filter (fun j => same_id k (j_id j)) (jobs d))).

(** *** Writing statements *)

Definition with_jobs (d : database) (js : list job) : database :=
  {| jobs := js; companies := companies d;
     applications := applications d; jobs_id_seq := jobs_id_seq d |}.

Definition with_applications (d : database) (l : list application) : database :=
  {| jobs := jobs d; companies := companies d;
     applications := l; jobs_id_seq := jobs_id_seq d |}.

(** The generator moves on whether or not the row is kept. *)
Definition next_id (d : database) : database :=
  {| jobs := jobs d; companies := companies d;
     applications := applications d; jobs_id_seq := jobs_id_seq d + 1 |}.

Definition has_company (d : database) (h : string) : bool :=
  existsb (fun c => String.eqb (c_handle c) h) (companies d).

Definition has_job (js : list job) (i : Z) : bool :=
  existsb (fun j => j_id j =? i) js.

(** [INSERT INTO jobs (title, salary, equity, company_handle)
    VALUES ($1, $2, $3, $4) RETURNING ...] *)
Definition insert_job (values : list value) (d : database)
  : result (list row) * database :=
  match
    (_ <-? arity_is 4 values ;;
     t <-? param values 1 ;;
     s <-? param values 2 ;;
     e <-? param values 3 ;;
     h <-? param values 4 ;;
     salary <-? numeric_param s ;;
     equity <-? numeric_param e ;;
     Ok (text_param t, salary, equity, text_param h))
  with
  | Err e => (Err e, d)
  | Ok (None, _, _, _) => (Err (DbError (NotNullViolation "title")), next_id d)
  | Ok (_, _, _, None) =>
      (Err (DbError (NotNullViolation "company_handle")), next_id d)
  | Ok (Some t, salary, equity, Some h) =>
      let j := {| j_id := jobs_id_seq d; j_title := t; j_salary := salary;
                  j_equity := equity; j_company_handle := h |} in
      if has_job (jobs d) (j_id j) then (Err (DbError UniqueViolation), next_id d)
      else if has_company d h
           then (Ok [returned_job j], with_jobs (next_id d) (jobs d ++ [j])%list)
           else (Err (DbError ForeignKeyViolation), next_id d)
  end.

(** A value as a column of [jobs] takes it. *)
Inductive cell : Type :=
| CInt (z : option Z)
| CNum (n : option number)
| CText (s : option string).

Definition coerce (column : string) (v : value) : result cell :=
  match column_type column with
  | Some TInteger => z <-? integer_param v ;; Ok (CInt z)
  | Some TNumeric => n <-? numeric_param v ;; Ok (CNum n)
  | Some TText => Ok (CText (text_param v))
  | None => Err (DbError (UndefinedColumn column))
  end.

Definition job_columns : list string :=
  ["id"; "title"; "salary"; "equity"; "company_handle"].

(** [SET column = x] on one row. *)
Definition store (j : job) (a : string * cell) : result job :=
  let null := Err (DbError (NotNullViolation (fst a))) in
  match a with
  | ("id", CInt (Some z)) =>
      Ok {| j_id := z; j_title := j_title j; j_salary := j_salary j;
            j_equity := j_equity j; j_company_handle := j_company_handle j |}
  | ("title", CText (Some s)) =>
      Ok {| j_id := j_id j; j_title := s; j_salary := j_salary j;
            j_equity := j_equity j; j_company_handle := j_company_handle j |}
  | ("salary", CNum n) =>
      Ok {| j_id := j_id j; j_title := j_title j; j_salary := n;
            j_equity := j_equity j; j_company_handle := j_company_handle j |}
  | ("equity", CNum n) =>
      Ok {| j_id := j_id j; j_title := j_title j; j_salary := j_salary j;
            j_equity := n; j_company_handle := j_company_handle j |}
  | ("company_handle", CText (Some s)) =>
      Ok {| j_id := j_id j; j_title := j_title j; j_salary := j_salary j;
            j_equity := j_equity j; j_company_handle := s |}
  | _ => null
  end.

Fixpoint store_all (j : job) (l : list (string * cell)) : result job :=
  match l with
  | [] => Ok j
  | a :: l' => j' <-? store j a ;; store_all j' l'
  end.

Fixpoint first_repeated (l : list string) : option string :=
  match l with
  | [] => None
  | c :: l' => if existsb (String.eqb c) l' then Some c else first_repeated l'
  end.

Definition unique_ids (js : list job) : bool :=
  bool_decide (NoDup (map j_id js)).

Definition known_job_column (c : string) : result unit :=
  if existsb (String.eqb c) job_columns then Ok tt
  else Err (DbError (UndefinedColumn c)).

Definition assigned_once (cols : list string) : result unit :=
  match first_repeated cols with
  | Some c => Err (DbError (AmbiguousAssignment c))
  | None => Ok tt
  end.

(** What is settled before any row is looked at: the SET list names
    columns of [jobs], each once, and every value is one its column
    takes. *)
Definition prepare_update (cols : list string) (values : list value)
  : result (list (string * cell) * option Z) :=
  _ <-? (if bool_decide (cols = []) then Err (DbError SyntaxError) else Ok tt) ;;
  _ <-? rmap known_job_column cols ;;
  _ <-? assigned_once cols ;;
  _ <-? arity_is (S (length cols)) values ;;
  cells <-? rmap (fun cv => coerce (fst cv) (snd cv)) (combine cols values) ;;
  v <-? param values (S (length cols)) ;;
  k <-? integer_param v ;;
  Ok (combine cols cells, k).

(** [UPDATE jobs SET c1 = $1, ..., cn = $n WHERE id = $(n+1)
    RETURNING *].  Other tables and keys are not written by this
    module. *)
Definition update_jobs (cols : list string) (values : list value)
  (d : database) : result (list row) * database :=
  match prepare_update cols values with
  | Err e => (Err e, d)
  | Ok (sets, k) =>
      let hit := List.filter (fun j => same_id k (j_id j)) (jobs d) in
      match rmap (fun j => store_all j sets) hit with
      | Err e => (Err e, d)
      | Ok [] => (Ok [], d)
      | Ok new =>
          let js := (List.filter (fun j => negb (same_id k (j_id j))) (jobs d) ++ new)%list in
          if negb (unique_ids js) then (Err (DbError UniqueViolation), d)
          else if forallb (fun j => has_company d (j_company_handle j)) new
                  && forallb (fun a => has_job js (a_job_id a)) (applications d)
               then (Ok (map returned_job new), with_jobs d js)
               else (Err (DbError ForeignKeyViolation), d)
      end
  end.

(** [DELETE FROM jobs WHERE id = $1 RETURNING id]; a job that
    applications refer to is kept by the foreign key. *)
Definition delete_job (values : list value) (d : database)
  : result (list row) * database :=
  match
    (_ <-? arity_is 1 values ;;
     v <-? param values 1 ;;
     integer_param v)
  with
  | Err e => (Err e, d)
  | Ok k =>
      match List.filter (fun j => same_id k (j_id j)) (jobs d) with
      | [] => (Ok [], d)
      | hit =>
          if existsb (fun a => same_id k (a_job_id a)) (applications d)
          then (Err (DbError ForeignKeyViolation), d)
          else (Ok (map (fun j => [("id", VInt (j_id j))]) hit),
                with_jobs d
                  (List.filter (fun j => negb (same_id k (j_id j))) (jobs d)))
      end
  end.

(** [INSERT INTO applications (job_id, username, state)
    VALUES ($1, $2, $3)].  The spec leaves open what the storage does with
    a second application of a user for a job; no key on that pair is
    modelled, and what is proved of a successful [apply] is stated for a
    user who has no application for the job yet. *)
Definition insert_application (values : list value) (d : database)
  : result (list row) * database :=
  match
    (_ <-? arity_is 3 values ;;
     i <-? param values 1 ;;
     u <-? param values 2 ;;
     s <-? param values 3 ;;
     k <-? integer_param i ;;
     Ok (k, text_param u, text_param s))
  with
  | Err e => (Err e, d)
  | Ok (None, _, _) => (Err (DbError (NotNullViolation "job_id")), d)
  | Ok (_, None, _) => (Err (DbError (NotNullViolation "username")), d)
  | Ok (Some k, Some u, s) =>
      if has_job (jobs d) k
      then (Ok [],
            with_applications d
              (applications d
                 ++ [{| a_job_id := k; a_username := u; a_state := s |}])%list)
      else (Err (DbError ForeignKeyViolation), d)
  end.

(** [DELETE FROM applications WHERE job_id = $1 AND username = $2
    RETURNING job_id] *)
Definition delete_application (values : list value) (d : database)
  : result (list row) * database :=
  match
    (_ <-? arity_is 2 values ;;
     i <-? param values 1 ;;
     u <-? param values 2 ;;
     k <-? integer_param i ;;
     Ok (k, text_param u))
  with
  | Err e => (Err e, d)
  | Ok (k, u) =>
      let hit a := same_id k (a_job_id a) && same_text u (a_username a) in
      (Ok (map (fun a => [("job_id", VInt (a_job_id a))])
             (List.filter hit (applications d))),
       with_applications d (List.filter (fun a => negb (hit a)) (applications d)))
  end.

(** *** [db.query] on the storage *)

(** Modelled from the spec: the connection module [../db] is not among the
    sources.  Section 6: it executes a statement text with positional
    parameters and gives an ordered sequence of rows, each a mapping from
    column name to value, or fails with a storage error.  The statements
    have their SQL meaning on the schema above; integers and numeric
    values come back as numbers, NULL as [null]. *)
Definition run (q : statement) (values : list value) (d : database)
  : result (list row) * database :=
  match q with
  | SelectUserJobs => (select_user_jobs values d, d)
  | SelectJobs conds => (select_jobs conds values d, d)
  | SelectJobsPage => (select_jobs_page values d, d)
  | CountJobs => (count_jobs values d, d)
  | SelectJob => (select_job values d, d)
  | SelectCompany => (select_company values d, d)
  | SelectJobId => (select_job_id values d, d)
  | InsertJob => insert_job values d
  | Update table cols key =>
      if String.eqb table "jobs" && String.eqb key "id"
      then update_jobs cols values d
      else (Err (DbError Unsupported), d)
  | DeleteJob => delete_job values d
  | InsertApplication => insert_application values d
  | DeleteApplication => delete_application values d
  end.

End Execution.

End Sql.

Import Sql.

(** ** The class Job *)

Module Job.

(** The storage together with the statements issued so far, oldest
    first. *)
Record world : Type := {
  storage : database;
  issued : list (statement * list value)
}.

(** An asynchronous method: it may change the storage and it either
    returns or throws.  What was written before a throw stays written. *)
Definition M (A : Type) : Type := world -> result A * world.

Definition ret {A} (a : A) : M A := fun w => (Ok a, w).

Definition throw {A} (e : exn) : M A := fun w => (Err e, w).

Definition bind {A B} (m : M A) (k : A -> M B) : M B :=
  fun w =>
    match m w with
    | (Ok a, w') => k a w'
    | (Err e, w') => (Err e, w')
    end.

Definition lift {A} (r : result A) : M A := fun w => (r, w).

Notation "x <- c1 ;; c2" := (bind c1 (fun x => c2))
  (at level 100, c1 at next level, right associativity).

Section Methods.
Context `{Host}.

(** [await db.query(text, values)] *)
Definition db_query (q : statement) (values : list value) : M (list row) :=
  fun w =>
    let (r, d) := run q values (storage w) in
    (r, {| storage := d; issued := (issued w ++ [(q, values)])%list |}).

(** Find all jobs for user. *)
Definition findUserJobs (username : value) : M (list row) :=
  res <- db_query SelectUserJobs [username] ;;
  let jobs := res in
  ret jobs.

Definition baseQuery : string := "
      SELECT id, title, company_handle, salary, equity, c.name, a.state 
      FROM jobs
        LEFT JOIN companies AS c ON company_handle = c.handle
        LEFT OUTER JOIN applications AS a on a.job_id = id AND a.username = $1".

(** The text of a predicate as the template literals spell it. *)
Definition render (p : predicate) : string :=
  match p_operator p with
  | Ge => p_column p ++ " >= $" ++ string_of_nat (p_param p)
  | ILike => p_column p ++ " ILIKE $" ++ string_of_nat (p_param p)
  end.

(** The two accumulators of [findAll] after the three tests. *)
Definition findAll_terms (data : gmap string value) (username : value)
  : list predicate * list value :=
  let whereExpressions : list predicate := [] in
  let queryValues := [username] in
  let '(whereExpressions, queryValues) :=
    if truthy (get data "min_salary") then
      let queryValues :=
        (queryValues ++ [VNum (to_number (get data "min_employees"))])%list in
      ((whereExpressions
          ++ [{| p_column := "min_salary"; p_operator := Ge;
                 p_param := length queryValues |}])%list,
       queryValues)
    else (whereExpressions, queryValues) in
  let '(whereExpressions, queryValues) :=
    if truthy (get data "max_equity") then
      let queryValues :=
        (queryValues ++ [VNum (to_number (get data "max_employees"))])%list in
      ((whereExpressions
          ++ [{| p_column := "min_equity"; p_operator := Ge;
                 p_param := length queryValues |}])%list,
       queryValues)
    else (whereExpressions, queryValues) in
  let '(whereExpressions, queryValues) :=
    if truthy (get data "search") then
      let queryValues :=
        (queryValues ++ [VStr ("%" ++ to_string (get data "search") ++ "%")])%list in
      ((whereExpressions
          ++ [{| p_column := "title"; p_operator := ILike;
                 p_param := length queryValues |}])%list,
       queryValues)
    else (whereExpressions, queryValues) in
  (whereExpressions, queryValues).

(** The text handed to [db.query]. *)
Definition finalQuery (whereExpressions : list predicate) : string :=
  let baseQuery :=
    if (0 <? length whereExpressions)%nat then baseQuery ++ " WHERE "
    else baseQuery in
  baseQuery ++ join " AND " (map render whereExpressions).

(** Find all jobs (can filter on terms in data). *)
Definition findAll (data : gmap string value) (username : value) : M (list row) :=
  let '(whereExpressions, queryValues) := findAll_terms data username in
  jobsRes <- db_query (SelectJobs whereExpressions) queryValues ;;
  ret jobsRes.

(** Find jobs based on offset and amount. *)
Definition findSome (data : gmap string value) (username : value)
  : M (list row * value) :=
  let offset := get data "offset" in
  let amt := get data "amt" in
  jobsRes <- db_query SelectJobsPage [username; offset; amt] ;;
  totalCount <- db_query CountJobs [] ;;
  match totalCount with
  | [] => throw TypeError
  | first :: _ => ret (jobsRes, row_get first "count")
  end.

(** A job row given its [company] property. *)
Record job_with_company : Type := {
  fields : row;
  company : option row
}.

(** Given a job id, return data about job. *)
Definition findOne (id : value) : M job_with_company :=
  jobRes <- db_query SelectJob [id] ;;
  match jobRes with
  | [] => throw (JsError ("There exists no job '" ++ to_string id ++ "'") 404)
  | job :: _ =>
      companiesRes <- db_query SelectCompany [row_get job "company_handle"] ;;
      ret {| fields := job; company := head companiesRes |}
  end.

(** Create a job (from data), update db, return new job data. *)
Definition create (data : gmap string value) : M (option row) :=
  result <- db_query InsertJob
              [get data "title"; get data "salary"; get data "equity";
               get data "company_handle"] ;;
  ret (head result).

(** Modelled from the spec: helpers/partialUpdate is not among the
    sources.  Section 4.2: from a table name, a sparse field-to-value
    map, an identifier column and an identifier value it produces an
    UPDATE that sets exactly the supplied fields, in map order, filters
    on the identifier column and returns the updated row; the
    identifier value is the last parameter; an empty map fails with a
    ValidationError. *)
Definition sqlForPartialUpdate (table : string) (items : list (string * value))
  (key : string) (id : value) : result (statement * list value) :=
  match items with
  | [] => Err ValidationError
  | _ :: _ => Ok (Update table (map fst items) key, (map snd items ++ [id])%list)
  end.

(** Update job data with [data]; return data for changed job. *)
Definition update (id : value) (data : list (string * value)) : M row :=
  built <- lift (sqlForPartialUpdate "jobs" data "id" id) ;;
  let '(query, values) := built in
  result <- db_query query values ;;
  match result with
  | [] => throw (JsError ("There exists no job '" ++ to_string id) 404)
  | job :: _ => ret job
  end.

(** Delete given job from database; returns undefined. *)
Definition remove (id : value) : M unit :=
  result <- db_query DeleteJob [id] ;;
  if (length result =? 0)%nat
  then throw (JsError ("There exists no job '" ++ to_string id) 404)
  else ret tt.

(** Apply for job: update db, returns undefined. *)
Definition apply (id username state : value) : M unit :=
  result <- db_query SelectJobId [id] ;;
  if (length result =? 0)%nat
  then throw (JsError ("There exists no job '" ++ to_string id) 404)
  else
    _ <- db_query InsertApplication [id; username; state] ;;
    ret tt.

Definition unapply (id username : value) : M unit :=
  result <- db_query DeleteApplication [id; username] ;;
  if (length result =? 0)%nat
  then throw (JsError ("There exists no application for job '" ++ to_string id) 404)
  else ret tt.

End Methods.

End Job.

(** ** What the properties are stated with *)

(** Whether a text occurs in another. *)
Fixpoint occurs (needle hay : string) : bool :=
  String.prefix needle hay
  || match hay with
     | EmptyString => false
     | String _ hay' => occurs needle hay'
     end.

(** The optional criteria of a search, in the order [findAll] tests them. *)
Inductive criterion : Type := MinSalary | MinEquity | TitleSearch.

(** The property of [data] whose truthiness decides that a criterion is
    present. *)
Definition guard (c : criterion) : string :=
  match c with
  | MinSalary => "min_salary"
  | MinEquity => "max_equity"
  | TitleSearch => "search"
  end.

Definition criteria (data : gmap string value) : list criterion :=
  List.filter (fun c => truthy (get data (guard c))) [MinSalary; MinEquity; TitleSearch].

(** The predicate a criterion contributes when its parameter is [$k]. *)
Definition predicate_text (c : criterion) (k : nat) : string :=
  match c with
  | MinSalary => "min_salary >= $" ++ string_of_nat k
  | MinEquity => "min_equity >= $" ++ string_of_nat k
  | TitleSearch => "title ILIKE $" ++ string_of_nat k
  end.

(** The value a criterion contributes. *)
Definition parameter_value `{Host} (data : gmap string value) (c : criterion) : value :=
  match c with
  | MinSalary => VNum (to_number (get data "min_employees"))
  | MinEquity => VNum (to_number (get data "max_employees"))
  | TitleSearch => VStr ("%" ++ to_string (get data "search") ++ "%")
  end.

(** The identifier a listing row carries. *)
Definition row_id (r : row) : option Z :=
  match row_get r "id" with
  | VNum (Num q) => if (Zpos (Qden q) =? 1) then Some (Qnum q) else None
  | _ => None
  end.

(** Rows in ascending order of identifier. *)
Definition id_le (r1 r2 : row) : Prop :=
  exists i1 i2, row_id r1 = Some i1 /\ row_id r2 = Some i2 /\ i1 <= i2.

(** Whether the user has an application for the job of a listing row. *)
Definition applied (d : database) (u : string) (r : row) : bool :=
  match row_id r with
  | Some i =>
      existsb (fun a => (a_job_id a =? i) && String.eqb (a_username a) u)
        (applications d)
  | None => false
  end.

(** The WHERE clause of [findUserJobs] on a row of its FROM clause. *)
Definition of_user (u : string) (x : joined) : bool :=
  match jr_app x with
  | Some a => same_text (Some u) (a_username a)
  | None => false
  end.

(** The columns both listings select under the same name. *)
Definition shared_columns : list string :=
  ["id"; "title"; "company_handle"; "salary"; "equity"; "state"].

(** An error carrying status 404. *)
Definition not_found (e : exn) : Prop :=
  exists message, e = JsError message 404.

(** A value a nullable numeric column gives back as it was given. *)
Definition number_or_null (v : value) : Prop :=
  v = VNull \/ exists n, v = VNum n.

(** A field of a partial update that the jobs table takes. *)
Definition settable `{Host} (cv : string * value) : Prop :=
  In (fst cv) job_columns /\ exists x, coerce (fst cv) (snd cv) = Ok x.

(** The identifier generator is ahead of every stored job and no two jobs
    share an identifier. *)
Definition ids_sound (d : database) : Prop :=
  Forall (fun j => j_id j < jobs_id_seq d) (jobs d)
  /\ NoDup (map j_id (jobs d)).

(** [WHERE job_id = $1 AND username = $2] on one application. *)
Definition of_pair (i : Z) (u : string) (a : application) : bool :=
  same_id (Some i) (a_job_id a) && same_text (Some u) (a_username a).

(** The request for [amt] rows from position [offset] on. *)
Definition page_of (offset amt : Z) : gmap string value :=
  {[ "offset" := VInt offset; "amt" := VInt amt ]}.

(** The key and reference constraints of the schema hold: identifiers are
    distinct, every job names a stored company and every application a
    stored job. *)
Definition constraints_hold (d : database) : Prop :=
  NoDup (map j_id (jobs d))
  /\ (forall j, In j (jobs d) -> has_company d (j_company_handle j) = true)
  /\ (forall a, In a (applications d) -> has_job (jobs d) (a_job_id a) = true).

(** A job under another title. *)
Definition retitled (t : string) (j : job) : job :=
  {| j_id := j_id j; j_title := t; j_salary := j_salary j;
     j_equity := j_equity j; j_company_handle := j_company_handle j |}.

(** The title test of a search: the term between two wildcards. *)
Definition title_like `{Host} (term : value) (x : joined) : bool :=
  ilike (j_title (jr_job x)) ("%" ++ to_string term ++ "%").

(** The application that [apply] records. *)
Definition application_of `{Host} (i : Z) (u : string) (state : value) : application :=
  {| a_job_id := i; a_username := u; a_state := text_param state |}.

(** ** A host and a storage to run the methods on *)

Module Sample.

Definition lower (c : ascii) : ascii :=
  let n := nat_of_ascii c in
  if ((65 <=? n) && (n <=? 90))%nat then ascii_of_nat (n + 32) else c.

(** LIKE with [%] and [_], letters compared without case. *)
Fixpoint like (pattern text : string) : bool :=
  match pattern with
  | EmptyString => match text with EmptyString => true | _ => false end
  | String "%" pattern' =>
      (fix any (t : string) : bool :=
         like pattern' t
         || match t with
            | EmptyString => false
            | String _ t' => any t'
            end) text
  | String "_" pattern' =>
      match text with
      | EmptyString => false
      | String _ text' => like pattern' text'
      end
  | String c pattern' =>
      match text with
      | EmptyString => false
      | String x text' => Ascii.eqb (lower c) (lower x) && like pattern' text'
      end
  end.

Definition decimal (s : string) : option Z :=
  match s with
  | EmptyString => None
  | _ => Z.of_uint <$> NilEmpty.uint_of_string s
  end.

(** Decimal integers are read and printed; a number that is not whole is
    printed as a quotient. *)
Definition host : Host := {|
  string_to_number s :=
    match s with
    | EmptyString => of_Z 0
    | _ => match decimal s with Some z => of_Z z | None => NaN end
    end;
  number_to_string n :=
    match n with
    | NaN => "NaN"
    | Num q =>
        if (Zpos (Qden q) =? 1) then string_of_Z (Qnum q)
        else string_of_Z (Qnum q) ++ "/" ++ string_of_Z (Zpos (Qden q))
    end;
  numeric_in s := of_Z <$> decimal s;
  integer_in := decimal;
  ilike text pattern := like pattern text
|}.

Definition acme : company :=
  {| c_handle := "acme"; c_name := "Acme Corp"; c_num_employees := Some 40;
     c_description := Some "Anvils"; c_logo_url := None |}.

Definition job_of (i : Z) (t : string) (s : Z) : job :=
  {| j_id := i; j_title := t; j_salary := Some (of_Z s);
     j_equity := None; j_company_handle := "acme" |}.

(** Three jobs with salaries 50000, 70000 and 90000, nobody has
    applied. *)
Definition three_jobs : database :=
  {| jobs := [job_of 1 "Clerk" 50000; job_of 2 "Developer" 70000;
              job_of 3 "Director" 90000];
     companies := [acme];
     applications := [];
     jobs_id_seq := 4 |}.

Definition start (d : database) : Job.world :=
  {| Job.storage := d; Job.issued := [] |}.

Definition alice : value := VStr "alice".

(** The data of a job to create at the stored company. *)
Definition welder : gmap string value :=
  {[ "title" := VStr "Welder"; "salary" := VInt 60000; "equity" := VNull;
     "company_handle" := VStr "acme" ]}.

End Sample.


(** ** Properties of the query built by [findAll] *)

Section Query.
Context `{Host}.

Import Job.



(** C4: the acting username is the first positional parameter; every
    present criterion adds one predicate and one parameter, in the order
    salary, equity, search, the k-th of them naming parameter k+1; the
    predicates are joined with AND only; with no criterion present the text
    is the base query, which has no WHERE. *)
Theorem findAll_query_shape (data : gmap string value) (username : value) :
  let present := criteria data in
  let whereExpressions := fst (findAll_terms data username) in
  let queryValues := snd (findAll_terms data username) in
  head queryValues = Some username
  /\ queryValues = username :: map (parameter_value data) present
  /\ length whereExpressions = length present
  /\ map render whereExpressions
     = imap (fun i c => predicate_text c (i + 2)) present
  /\ finalQuery whereExpressions
     = match present with
       | [] => baseQuery
       | _ :: _ => baseQuery ++ " WHERE " ++ join " AND " (map render whereExpressions)
       end
  /\ (present = [] -> occurs "WHERE" (finalQuery whereExpressions) = false).
Proof.
  unfold criteria, findAll_terms. cbn [List.filter guard].
  destruct (truthy (get data "min_salary"));
    destruct (truthy (get data "max_equity"));
    destruct (truthy (get data "search"));
    cbn [fst snd];
    (split; [reflexivity |]);
    (split; [reflexivity |]);
    (split; [reflexivity |]);
    (split; [reflexivity |]);
    (split; [vm_compute; reflexivity |]);
    intros Hnone; try discriminate Hnone; vm_compute; reflexivity.
Qed.


(** C1: with a minimum salary of 60000 and nothing else, the parameter
    bound is the number read from [min_employees], NaN here, and the
    predicate names a column [min_salary] that no table in scope has: the
    statement is rejected, where the jobs paying 70000 and 90000 were to be
    returned. *)
Theorem findAll_min_salary_misread :
  let data : gmap string value := {[ "min_salary" := VInt 60000 ]} in
  let w := Sample.start Sample.three_jobs in
  findAll_terms data Sample.alice
  = ([{| p_column := "min_salary"; p_operator := Ge; p_param := 2 |}],
     [VStr "alice"; VNum NaN])
  /\ finalQuery (fst (findAll_terms data Sample.alice))
     = baseQuery ++ " WHERE min_salary >= $2"
  /\ fst (findAll data Sample.alice w) = Err (DbError (UndefinedColumn "min_salary"))
  /\ map j_id
       (List.filter
          (fun j => match j_salary j with
                    | Some s => number_ge s (of_Z 60000)
                    | None => false
                    end)
          (jobs Sample.three_jobs))
     = [2; 3].
Proof.
  repeat split; vm_compute; reflexivity.
Qed.

End Query.

(** ** Properties of the methods on the storage *)

Section Storage.
Context `{Host}.

Import Job.

Lemma integer_param_VInt (i : Z) : integer_param (VInt i) = Ok (Some i).
Proof.
  unfold integer_param, VInt, of_Z, inject_Z.
  change (Qnum (i # 1)) with i. change (Zpos (Qden (i # 1))) with 1.
  rewrite Z.mod_1_r, Z.div_1_r. reflexivity.
Qed.

Lemma row_id_VInt (r : row) (i : Z) : row_get r "id" = VInt i -> row_id r = Some i.
Proof. unfold row_id. intros ->. reflexivity. Qed.

Lemma filter_none {A} (f : A -> bool) (l : list A) :
  (forall x, In x l -> f x = false) -> List.filter f l = [].
Proof.
  induction l as [|a l IH]; intros Hf; [reflexivity |].
  cbn. rewrite (Hf a (or_introl eq_refl)).
  apply IH. intros x Hx. apply Hf. by right.
Qed.

Lemma no_such_job (i : Z) (js : list job) :
  (forall j, In j js -> j_id j <> i) ->
  List.filter (fun j => same_id (Some i) (j_id j)) js = [].
Proof.
  intros Hno. apply filter_none. intros j Hj.
  cbn. apply Z.eqb_neq. by apply Hno.
Qed.

Lemma rmap_ok {A B} (f : A -> result B) (l : list A) :
  Forall (fun a => exists b, f a = Ok b) l ->
  exists bs, rmap f l = Ok bs /\ length bs = length l.
Proof.
  induction 1 as [|a l [b Hb] _ [bs [IH Hlen]]].
  - by exists [].
  - exists (b :: bs). cbn. rewrite Hb. cbn. rewrite IH. cbn.
    split; [reflexivity | by rewrite Hlen].
Qed.

Lemma first_repeated_NoDup (l : list string) : NoDup l -> first_repeated l = None.
Proof.
  induction 1 as [|c l Hc _ IH]; [reflexivity |].
  cbn. destruct (existsb (String.eqb c) l) eqn:E; [| exact IH].
  apply existsb_exists in E as [x [Hx Heq]].
  apply String.eqb_eq in Heq as <-.
  exfalso. apply Hc. by apply list_elem_of_In.
Qed.

Lemma combine_fst_snd {A B} (l : list (A * B)) (extra : list B) :
  combine (map fst l) (map snd l ++ extra) = l.
Proof.
  induction l as [|[a b] l IH]; cbn.
  - by destruct extra.
  - by rewrite IH.
Qed.

(** A valid partial update passes everything that is settled before the
    rows are looked at. *)
Lemma prepare_update_ok (data : list (string * value)) (i : Z) :
  data <> [] -> NoDup (map fst data) -> Forall settable data ->
  exists sets,
    prepare_update (map fst data) (map snd data ++ [VInt i])%list = Ok (sets, Some i).
Proof.
  intros Hne Hnd Hset.
  unfold prepare_update.
  rewrite bool_decide_eq_false_2 by (destruct data; [done | discriminate]).
  cbn [rbind].
  destruct (rmap_ok known_job_column (map fst data)) as [us [-> _]].
  { apply Forall_map. eapply Forall_impl; [exact Hset |].
    intros cv [Hin _]. exists tt. unfold known_job_column.
    destruct (existsb (String.eqb (fst cv)) job_columns) eqn:E; [reflexivity |].
    exfalso. apply Bool.not_true_iff_false in E. apply E.
    apply existsb_exists. exists (fst cv). split; [exact Hin | apply String.eqb_refl]. }
  cbn [rbind]. unfold assigned_once.
  rewrite (first_repeated_NoDup _ Hnd). cbn [rbind].
  unfold arity_is.
  rewrite length_app, !length_map, Nat.add_1_r, Nat.eqb_refl. cbn [rbind].
  rewrite combine_fst_snd.
  destruct (rmap_ok (fun cv => coerce (fst cv) (snd cv)) data) as [cells [-> _]].
  { eapply Forall_impl; [exact Hset |]. intros cv [_ Hc]. exact Hc. }
  cbn [rbind]. unfold param.
  rewrite lookup_app_r by (rewrite length_map; lia).
  rewrite length_map, Nat.sub_diag. cbn [lookup list_lookup rbind].
  rewrite integer_param_VInt. cbn [rbind].
  by eexists.
Qed.

(** C6: with an empty field map [update] throws the helper's
    ValidationError and the world is the one it started in: the storage is
    unchanged and no statement was issued. *)
Theorem update_empty_is_rejected (id : value) (w : world) :
  update id [] w = (Err ValidationError, w).
Proof. reflexivity. Qed.

(** C7: when no job has the identifier, [apply] throws an error of status
    404 after the lookup alone: the INSERT is not issued and the storage,
    its applications included, is unchanged. *)
Theorem apply_missing_job (i : Z) (username state : value) (w : world) :
  (forall j, In j (jobs (storage w)) -> j_id j <> i) ->
  let w' := {| storage := storage w;
               issued := (issued w ++ [(SelectJobId, [VInt i])])%list |} in
  Job.apply (VInt i) username state w
  = (Err (JsError ("There exists no job '" ++ to_string (VInt i)) 404), w')
  /\ applications (storage w') = applications (storage w).
Proof.
  intros Hno. split; [| reflexivity].
  unfold Job.apply, bind, db_query, run, select_job_id.
  cbn [arity_is length Nat.eqb rbind param lookup list_lookup].
  rewrite integer_param_VInt. cbn [rbind].
  rewrite (no_such_job i _ Hno). reflexivity.
Qed.

(** C5: when no job has the identifier, [findOne], [update] (given a
    field map the jobs table takes) and [remove] each throw an error of
    status 404 and leave the storage as it was. *)
Theorem missing_job_not_found (i : Z) (data : list (string * value)) (w : world) :
  (forall j, In j (jobs (storage w)) -> j_id j <> i) ->
  data <> [] -> NoDup (map fst data) -> Forall settable data ->
  (exists e w', findOne (VInt i) w = (Err e, w')
                /\ not_found e /\ storage w' = storage w)
  /\ (exists e w', update (VInt i) data w = (Err e, w')
                   /\ not_found e /\ storage w' = storage w)
  /\ (exists e w', remove (VInt i) w = (Err e, w')
                   /\ not_found e /\ storage w' = storage w).
Proof.
  intros Hno Hne Hnd Hset. repeat split.
  - eexists _, _. split; [| split].
    + unfold findOne, bind, db_query, run, select_job.
      cbn [arity_is length Nat.eqb rbind param lookup list_lookup].
      rewrite integer_param_VInt. cbn [rbind].
      rewrite filter_none; [reflexivity |].
      intros [j c] Hin. cbn. apply Z.eqb_neq. apply Hno.
      unfold inner_join in Hin. apply in_flat_map in Hin as [j' [Hj' Hin]].
      apply in_map_iff in Hin as [c' [[= <- <-] _]]. exact Hj'.
    + by eexists.
    + reflexivity.
  - destruct (prepare_update_ok data i Hne Hnd Hset) as [sets Hprep].
    destruct data as [|cv data']; [congruence |].
    eexists _, _. split; [| split].
    + unfold update, bind, lift, sqlForPartialUpdate.
      unfold db_query, run. cbn [String.eqb Ascii.eqb Bool.eqb andb].
      unfold update_jobs. rewrite Hprep.
      rewrite (no_such_job i _ Hno). reflexivity.
    + by eexists.
    + reflexivity.
  - eexists _, _. split; [| split].
    + unfold remove, bind, db_query, run, delete_job.
      cbn [arity_is length Nat.eqb rbind param lookup list_lookup].
      rewrite integer_param_VInt.
      rewrite (no_such_job i _ Hno). reflexivity.
    + by eexists.
    + reflexivity.
Qed.

Lemma numeric_param_kept (v : value) :
  number_or_null v -> exists o, numeric_param v = Ok o /\ opt_num o = v.
Proof.
  intros [-> | [n ->]]; [by exists None | by exists (Some n)].
Qed.

Lemma has_job_fresh (js : list job) (i : Z) :
  Forall (fun j => j_id j < i) js -> has_job js i = false.
Proof.
  intros Hlt. unfold has_job. apply Bool.not_true_iff_false. intros E.
  apply existsb_exists in E as [j [Hj Heq]].
  rewrite Forall_forall in Hlt. apply list_elem_of_In, Hlt in Hj.
  apply Z.eqb_eq in Heq. lia.
Qed.

Lemma inner_join_app {A B} (on : A -> B -> bool) (l1 l2 : list A) (r : list B) :
  inner_join on (l1 ++ l2) r = (inner_join on l1 r ++ inner_join on l2 r)%list.
Proof. unfold inner_join. apply flat_map_app. Qed.

Lemma inner_join_left {A B} (on : A -> B -> bool) (l : list A) (r : list B) x :
  In x (inner_join on l r) -> In (fst x) l.
Proof.
  unfold inner_join. intros Hin.
  apply in_flat_map in Hin as [a [Ha Hin]].
  apply in_map_iff in Hin as [b [<- _]]. exact Ha.
Qed.

Lemma filter_all {A} (f : A -> bool) (l : list A) :
  (forall x, In x l -> f x = true) -> List.filter f l = l.
Proof.
  induction l as [|a l IH]; intros Hf; [reflexivity |].
  cbn. rewrite (Hf a (or_introl eq_refl)). f_equal.
  apply IH. intros x Hx. apply Hf. by right.
Qed.

(** The job just inserted is the first row the lookup by its identifier
    finds. *)
Lemma select_job_new (d : database) (j : job) (seq : Z) :
  has_company d (j_company_handle j) = true ->
  Forall (fun old => j_id old < j_id j) (jobs d) ->
  exists c rest,
    select_job [VInt (j_id j)]
      {| jobs := (jobs d ++ [j])%list; companies := companies d;
         applications := applications d; jobs_id_seq := seq |}
    = Ok (job_row (j, c) :: rest).
Proof.
  intros Hc Hold. unfold select_job.
  cbn [arity_is length Nat.eqb rbind param lookup list_lookup].
  rewrite integer_param_VInt. cbn [rbind jobs companies].
  rewrite inner_join_app, List.filter_app.
  rewrite (filter_none _ (inner_join on_company (jobs d) (companies d))).
  2:{ intros x Hx. apply inner_join_left in Hx.
      rewrite Forall_forall in Hold. apply list_elem_of_In, Hold in Hx.
      cbn. apply Z.eqb_neq. lia. }
  unfold inner_join at 1. cbn [flat_map]. rewrite app_nil_r, app_nil_l.
  rewrite filter_all.
  2:{ intros x Hx. apply in_map_iff in Hx as [c [<- _]]. cbn. apply Z.eqb_refl. }
  unfold has_company in Hc.
  apply existsb_exists in Hc as [c [Hin Heq]].
  assert (Hf : In c (List.filter (on_company j) (companies d))).
  { apply filter_In. split; [exact Hin |].
    unfold on_company. rewrite String.eqb_sym. exact Heq. }
  destruct (List.filter (on_company j) (companies d)) as [|c0 cs]; [destruct Hf |].
  by exists c0, (map job_row (map (fun b => (j, b)) cs)).
Qed.

(** C9: for data whose title and company handle are texts, whose salary
    and equity are numbers or null, and whose handle is that of a stored
    company, [create] returns a row and [findOne] on the identifier of that
    row returns a job with the title, salary, equity and company handle of
    the data.  The identifier generator is ahead of the stored jobs. *)
Theorem create_then_findOne (data : gmap string value) (t h : string) (w : world) :
  get data "title" = VStr t ->
  number_or_null (get data "salary") ->
  number_or_null (get data "equity") ->
  get data "company_handle" = VStr h ->
  (exists c, In c (companies (storage w)) /\ c_handle c = h) ->
  Forall (fun j => j_id j < jobs_id_seq (storage w)) (jobs (storage w)) ->
  exists created w1 found w2,
    create data w = (Ok (Some created), w1)
    /\ findOne (row_get created "id") w1 = (Ok found, w2)
    /\ Forall (fun k => row_get (fields found) k = get data k)
         ["title"; "salary"; "equity"; "company_handle"].
Proof.
  intros Ht Hs He Hh [c [Hc Hch]] Hseq.
  destruct (numeric_param_kept _ Hs) as [os [Hos Hos']].
  destruct (numeric_param_kept _ He) as [oe [Hoe Hoe']].
  set (d := storage w) in *.
  set (j := {| j_id := jobs_id_seq d; j_title := t; j_salary := os;
               j_equity := oe; j_company_handle := h |}).
  assert (Hhas : has_company d h = true).
  { apply existsb_exists. exists c. split; [exact Hc |].
    apply String.eqb_eq. exact Hch. }
  destruct (select_job_new d j (jobs_id_seq d + 1) Hhas Hseq) as [c0 [rest Hsel]].
  assert (Hcreate : create data w
    = (Ok (Some (returned_job j)),
       {| storage := with_jobs (next_id d) (jobs d ++ [j])%list;
          issued := (issued w ++ [(InsertJob,
                       [get data "title"; get data "salary"; get data "equity";
                        get data "company_handle"])])%list |})).
  { unfold create, bind, db_query, run, insert_job.
    cbn [arity_is length Nat.eqb rbind param lookup list_lookup].
    rewrite Hos, Hoe, Ht, Hh. cbn [rbind text_param].
    fold d. fold j. change (j_id j) with (jobs_id_seq d).
    rewrite (has_job_fresh _ _ Hseq), Hhas. reflexivity. }
  eexists _, _, _, _. split; [exact Hcreate |]. split.
  - unfold findOne, bind, db_query, run.
    change (row_get (returned_job j) "id") with (VInt (j_id j)).
    cbn [storage]. unfold with_jobs, next_id. cbn [jobs companies applications jobs_id_seq].
    rewrite Hsel. reflexivity.
  - cbn [fields]. repeat constructor; cbn.
    + by rewrite Ht.
    + by rewrite <- Hos'.
    + by rewrite <- Hoe'.
    + by rewrite Hh.
Qed.

(** *** The listings *)

#[local] Instance by_id_total : Total by_id.
Proof. intros x y. unfold by_id. lia. Qed.

#[local] Instance by_id_transitive : Transitive by_id.
Proof. intros x y z. unfold by_id. lia. Qed.

Lemma StronglySorted_window {A} (R : relation A) (l : list A) (o n : nat) :
  StronglySorted R l -> StronglySorted R (firstn n (skipn o l)).
Proof.
  intros Hl.
  rewrite <- (firstn_skipn o l) in Hl.
  apply StronglySorted_app_1_r in Hl.
  rewrite <- (firstn_skipn n (skipn o l)) in Hl.
  by apply StronglySorted_app_1_l in Hl.
Qed.

Lemma listing_row_id (x : joined) : row_id (listing_row x) = Some (j_id (jr_job x)).
Proof. reflexivity. Qed.

Lemma listing_rows_ordered (l : list joined) :
  Sorted by_id l -> Sorted id_le (map listing_row l).
Proof.
  apply (Sorted_fmap listing_row by_id id_le).
  intros x y Hxy. exists (j_id (jr_job x)), (j_id (jr_job y)).
  by rewrite !listing_row_id.
Qed.

(** With no predicate the listing is every joined row. *)
Lemma select_jobs_unfiltered (username : value) (d : database) :
  select_jobs [] [username] d
  = Ok (map listing_row (jobs_joined d (text_param username))).
Proof.
  unfold select_jobs. cbn. by rewrite filter_all.
Qed.

Lemma findAll_no_criteria (username : value) (w : world) :
  fst (findAll ∅ username w)
  = Ok (map listing_row (jobs_joined (storage w) (text_param username))).
Proof.
  unfold findAll, findAll_terms, get. rewrite !lookup_empty.
  cbn [default truthy]. unfold bind, db_query, run.
  by rewrite select_jobs_unfiltered.
Qed.

(** What a left join holds: every left row, with each right row it
    matches, or with none when it matches none. *)
Lemma left_join_in {A B} (on : A -> B -> bool) (l : list A) (r : list B) x o :
  In (x, o) (left_join on l r) <->
  In x l /\ match o with
            | Some b => In b r /\ on x b = true
            | None => List.filter (on x) r = []
            end.
Proof.
  unfold left_join. rewrite in_flat_map. split.
  - intros [a [Ha Hin]].
    destruct (List.filter (on a) r) as [|b m] eqn:E.
    + destruct Hin as [[= <- <-] | []]. by split.
    + apply in_map_iff in Hin as [b' [[= <- <-] Hb']].
      split; [exact Ha |]. apply filter_In. by rewrite E.
  - intros [Hx Ho]. exists x. split; [exact Hx |].
    destruct o as [b |].
    + apply filter_In in Ho.
      destruct (List.filter (on x) r) as [|b0 m]; [destruct Ho |].
      apply in_map_iff. by exists b.
    + rewrite Ho. by left.
Qed.

Lemma left_join_left {A B} (on : A -> B -> bool) (l : list A) (r : list B) x :
  In x l -> exists o, In (x, o) (left_join on l r).
Proof.
  intros Hx. destruct (List.filter (on x) r) as [|b m] eqn:E.
  - exists None. apply left_join_in. by split.
  - exists (Some b). apply left_join_in. split; [exact Hx |].
    apply filter_In. rewrite E. by left.
Qed.

Lemma jobs_joined_job (d : database) (u : option string) (x : joined) :
  In x (jobs_joined d u) -> In (jr_job x) (jobs d).
Proof.
  unfold jobs_joined. intros Hin.
  apply in_map_iff in Hin as [[[j c] o] [<- Hin]].
  apply left_join_in in Hin as [Hjc _].
  by apply left_join_in in Hjc as [Hj _].
Qed.

Lemma jobs_joined_every (d : database) (u : option string) (j : job) :
  In j (jobs d) -> exists c a,
    In {| jr_job := j; jr_company := c; jr_app := a |} (jobs_joined d u).
Proof.
  intros Hj.
  destruct (left_join_left on_company (jobs d) (companies d) j Hj) as [c Hjc].
  destruct (left_join_left (on_application u) _ (applications d) (j, c) Hjc)
    as [a Ha].
  exists c, a. unfold jobs_joined. apply in_map_iff. by exists ((j, c), a).
Qed.

Lemma filter_at_most_one {A K} (f : A -> K) (p : A -> bool) (l : list A) :
  NoDup (map f l) ->
  (forall x y, p x = true -> p y = true -> f x = f y) ->
  (length (List.filter p l) <= 1)%nat.
Proof.
  intros Hnd Hp. induction l as [|a l IH]; [cbn; lia |].
  cbn [map] in Hnd. apply NoDup_cons in Hnd as [Hnot Hnd].
  cbn [List.filter]. destruct (p a) eqn:Ea; [| by apply IH].
  rewrite filter_none; [cbn; lia |].
  intros y Hy. apply Bool.not_true_iff_false. intros Ey.
  apply Hnot. rewrite (Hp a y Ea Ey). apply list_elem_of_In, in_map, Hy.
Qed.

Lemma left_join_one_each {A B} (on : A -> B -> bool) (l : list A) (r : list B) :
  (forall a, In a l -> (length (List.filter (on a) r) <= 1)%nat) ->
  map fst (left_join on l r) = l.
Proof.
  induction l as [|a l IH]; intros Hone; [reflexivity |].
  unfold left_join. cbn [flat_map]. rewrite map_app. fold (left_join on l r).
  rewrite IH by (intros x Hx; apply Hone; by right).
  pose proof (Hone a (or_introl eq_refl)) as Ha.
  destruct (List.filter (on a) r) as [|b [|b' m]]; [reflexivity | reflexivity |].
  cbn in Ha. lia.
Qed.

(** The application a row of the FROM clause carries is one of the user for
    the job, and it carries none only when there is none. *)
Lemma jobs_joined_app (d : database) (u : option string) (x : joined) :
  In x (jobs_joined d u) ->
  match jr_app x with
  | Some a => In a (applications d)
              /\ a_job_id a = j_id (jr_job x) /\ u = Some (a_username a)
  | None => forall a, In a (applications d) ->
              ~ (a_job_id a = j_id (jr_job x) /\ u = Some (a_username a))
  end.
Proof.
  unfold jobs_joined. intros Hin.
  apply in_map_iff in Hin as [[[j c] o] [<- Hin]]. cbn [jr_job jr_app fst snd].
  apply left_join_in in Hin as [_ Ho].
  destruct o as [a |].
  - destruct Ho as [Ha Hon]. unfold on_application in Hon.
    destruct u as [s |]; [| discriminate Hon]. cbn [fst] in Hon.
    apply andb_prop in Hon as [Hid Hu].
    apply Z.eqb_eq in Hid. apply String.eqb_eq in Hu. by subst.
  - intros a Ha [Hid Hu].
    assert (Hf : In a (List.filter (on_application u (j, c)) (applications d))).
    { apply filter_In. split; [exact Ha |]. unfold on_application. rewrite Hu.
      cbn [fst]. apply andb_true_intro.
      split; [by apply Z.eqb_eq | apply String.eqb_refl]. }
    rewrite Ho in Hf. destruct Hf.
Qed.

(** With handles distinct and one application at most for a user and a
    job, the FROM clause has one row for each job, in the order stored. *)
Lemma jobs_joined_one_each (d : database) (u : option string) :
  NoDup (map c_handle (companies d)) ->
  NoDup (map (fun a => (a_job_id a, a_username a)) (applications d)) ->
  map jr_job (jobs_joined d u) = jobs d.
Proof.
  intros Hc Ha. unfold jobs_joined. rewrite map_map. cbn [jr_job].
  rewrite <- (map_map fst fst).
  rewrite left_join_one_each.
  - apply left_join_one_each. intros j _.
    apply (filter_at_most_one c_handle); [exact Hc |].
    unfold on_company. intros x y Hx Hy.
    apply String.eqb_eq in Hx. apply String.eqb_eq in Hy. congruence.
  - intros jc _.
    apply (filter_at_most_one (fun a => (a_job_id a, a_username a))); [exact Ha |].
    unfold on_application. destruct u as [s |]; [| discriminate].
    intros x y Hx Hy.
    apply andb_prop in Hx as [Hx1 Hx2]. apply andb_prop in Hy as [Hy1 Hy2].
    apply Z.eqb_eq in Hx1. apply Z.eqb_eq in Hy1.
    apply String.eqb_eq in Hx2. apply String.eqb_eq in Hy2. congruence.
Qed.

(** C8: for an offset and a count that are not negative, [findSome]
    returns the rows from position offset on, count of them at most, of the
    whole listing put in ascending order of identifier, and with them the
    number of stored jobs, whatever the offset and the count.  The listing
    is that of the stored jobs: every job has a row in it, every row is a
    job with its columns and the state of an application of the user for
    it, null when there is none, and there is one row for each job when
    handles are distinct and a user has one application at most for a
    job. *)
Theorem findSome_window (data : gmap string value) (username : value)
  (offset amt : Z) (w : world) :
  get data "offset" = VInt offset ->
  get data "amt" = VInt amt ->
  0 <= offset -> 0 <= amt ->
  exists listing ordered rows w',
    fst (findAll ∅ username w) = Ok listing
    /\ Permutation ordered listing
    /\ Sorted id_le ordered
    /\ (forall j, In j (jobs (storage w)) ->
          exists r, In r ordered /\ row_id r = Some (j_id j))
    /\ (forall r, In r ordered ->
          exists j, In j (jobs (storage w))
                    /\ row_id r = Some (j_id j)
                    /\ row_get r "title" = VStr (j_title j)
                    /\ row_get r "company_handle" = VStr (j_company_handle j)
                    /\ row_get r "salary" = opt_num (j_salary j)
                    /\ row_get r "equity" = opt_num (j_equity j)
                    /\ ((exists a, In a (applications (storage w))
                                   /\ a_job_id a = j_id j
                                   /\ text_param username = Some (a_username a)
                                   /\ row_get r "state" = opt_str (a_state a))
                        \/ ((forall a, In a (applications (storage w)) ->
                                ~ (a_job_id a = j_id j
                                   /\ text_param username = Some (a_username a)))
                            /\ row_get r "state" = VNull)))
    /\ (NoDup (map c_handle (companies (storage w))) ->
        NoDup (map (fun a => (a_job_id a, a_username a)) (applications (storage w))) ->
        Permutation (map row_id ordered)
          (map (fun j => Some (j_id j)) (jobs (storage w))))
    /\ findSome data username w
       = (Ok (rows, VInt (Z.of_nat (length (jobs (storage w))))), w')
    /\ rows = firstn (Z.to_nat amt) (skipn (Z.to_nat offset) ordered)
    /\ (length rows <= Z.to_nat amt)%nat
    /\ Sorted id_le rows
    /\ storage w' = storage w.
Proof.
  intros Hoff Hamt Ho Ha.
  set (J := jobs_joined (storage w) (text_param username)).
  assert (Hsorted : Sorted by_id (merge_sort by_id J))
    by apply (Sorted_merge_sort by_id).
  assert (Hperm : Permutation (merge_sort by_id J) J)
    by apply merge_sort_Permutation.
  exists (map listing_row J), (map listing_row (merge_sort by_id J)).
  eexists _, _.
  split; [apply findAll_no_criteria |].
  split; [by apply Permutation_map |].
  split; [by apply listing_rows_ordered |].
  split.
  { intros j Hj.
    destruct (jobs_joined_every (storage w) (text_param username) j Hj)
      as [c [a Hin]].
    exists (listing_row {| jr_job := j; jr_company := c; jr_app := a |}).
    split; [| reflexivity].
    apply in_map. apply (Permutation_in _ (Permutation_sym Hperm)). exact Hin. }
  split.
  { intros r Hr. apply in_map_iff in Hr as [x [<- Hx]].
    apply (Permutation_in _ Hperm) in Hx.
    exists (jr_job x). split; [by apply jobs_joined_job in Hx |].
    do 5 (split; [reflexivity |]).
    apply jobs_joined_app in Hx. cbn [listing_row row_get String.eqb Ascii.eqb Bool.eqb].
    destruct (jr_app x) as [a |].
    - left. exists a. destruct Hx as [Hin [Hid Hu]]. by repeat split.
    - right. by split. }
  split.
  { intros Hc Happ.
    rewrite map_map.
    rewrite (map_ext (fun x => row_id (listing_row x))
                     (fun x => Some (j_id (jr_job x)))) by apply listing_row_id.
    rewrite <- (jobs_joined_one_each (storage w) (text_param username) Hc Happ).
    rewrite (map_map jr_job). fold J. by apply Permutation_map. }
  split.
  { unfold findSome, bind, db_query, run, select_jobs_page, count_jobs.
    rewrite Hoff, Hamt.
    cbn [arity_is length Nat.eqb rbind param lookup list_lookup].
    rewrite !integer_param_VInt. cbn [rbind non_negative].
    rewrite (proj2 (Z.ltb_ge offset 0) Ho), (proj2 (Z.ltb_ge amt 0) Ha).
    cbn [rbind limit_rows offset_rows row_get String.eqb Ascii.eqb Bool.eqb].
    fold J. reflexivity. }
  split; [by rewrite skipn_map, firstn_map |].
  split; [rewrite length_map; apply firstn_le_length |].
  split; [| reflexivity].
  apply listing_rows_ordered, StronglySorted_Sorted, StronglySorted_window.
  apply Sorted_StronglySorted; [apply by_id_transitive | exact Hsorted].
Qed.

(** The rows of the FROM clause for a user: every job, with an application
    of that user for it where there is one. *)
Lemma jobs_joined_in (d : database) (u : string) (x : joined) :
  In x (jobs_joined d (Some u)) ->
  In (jr_job x) (jobs d)
  /\ match jr_app x with
     | Some a => In a (applications d)
                 /\ a_job_id a = j_id (jr_job x) /\ a_username a = u
     | None => forall a, In a (applications d) ->
                 a_job_id a = j_id (jr_job x) -> a_username a <> u
     end.
Proof.
  unfold jobs_joined. intros Hin.
  apply in_map_iff in Hin as [[[j c] o] [<- Hin]]. cbn [jr_job jr_app fst snd].
  apply left_join_in in Hin as [Hjc Ho].
  apply left_join_in in Hjc as [Hj _]. split; [exact Hj |].
  destruct o as [a |].
  - destruct Ho as [Ha Hon]. unfold on_application in Hon. cbn [fst] in Hon.
    apply andb_prop in Hon as [Hid Hu].
    apply Z.eqb_eq in Hid. apply String.eqb_eq in Hu. by repeat split.
  - intros a Ha Hid Hu.
    assert (Hf : In a (List.filter (on_application (Some u) (j, c)) (applications d))).
    { apply filter_In. split; [exact Ha |]. unfold on_application. cbn [fst].
      apply andb_true_intro. split; [by apply Z.eqb_eq | by apply String.eqb_eq]. }
    rewrite Ho in Hf. destruct Hf.
Qed.

Lemma jobs_joined_applied (d : database) (u : string) (j : job) (a : application) :
  In j (jobs d) -> In a (applications d) ->
  a_job_id a = j_id j -> a_username a = u ->
  exists c, In {| jr_job := j; jr_company := c; jr_app := Some a |}
              (jobs_joined d (Some u)).
Proof.
  intros Hj Ha Hid Hu.
  destruct (left_join_left on_company (jobs d) (companies d) j Hj) as [c Hjc].
  exists c. unfold jobs_joined. apply in_map_iff.
  exists ((j, c), Some a). split; [reflexivity |].
  apply left_join_in. split; [exact Hjc |]. split; [exact Ha |].
  unfold on_application. cbn [fst].
  apply andb_true_intro. split; [by apply Z.eqb_eq | by apply String.eqb_eq].
Qed.

Lemma findUserJobs_rows (u : string) (w : world) :
  findUserJobs (VStr u) w
  = (Ok (map user_job_row
           (List.filter (of_user u) (jobs_joined (storage w) (Some u)))),
     {| storage := storage w;
        issued := (issued w ++ [(SelectUserJobs, [VStr u])])%list |}).
Proof. reflexivity. Qed.

(** C3, as the code has it: [findUserJobs] returns the jobs the user has
    applied to and no other.  Every row it returns is a stored job with the
    state of an application of that user for it, and every such pair of a
    job and an application is returned; the storage is not changed. *)
Theorem findUserJobs_applied_only (u : string) (w : world) :
  exists rows w',
    findUserJobs (VStr u) w = (Ok rows, w')
    /\ storage w' = storage w
    /\ (forall r, In r rows ->
          exists j a, In j (jobs (storage w)) /\ In a (applications (storage w))
            /\ a_job_id a = j_id j /\ a_username a = u
            /\ row_get r "id" = VInt (j_id j)
            /\ row_get r "title" = VStr (j_title j)
            /\ row_get r "state" = opt_str (a_state a)
            /\ row_get r "username" = VStr u)
    /\ (forall j a, In j (jobs (storage w)) -> In a (applications (storage w)) ->
          a_job_id a = j_id j -> a_username a = u ->
          exists r, In r rows
            /\ row_get r "id" = VInt (j_id j)
            /\ row_get r "state" = opt_str (a_state a)).
Proof.
  eexists _, _. split; [apply findUserJobs_rows |]. split; [reflexivity |]. split.
  - intros r Hr.
    apply in_map_iff in Hr as [x [<- Hx]].
    apply filter_In in Hx as [Hx Hu].
    apply jobs_joined_in in Hx as [Hj Ha].
    unfold of_user in Hu. destruct x as [j c [a |]]; [| discriminate Hu].
    cbn [jr_job jr_app] in *. destruct Ha as [Ha [Hid Hname]].
    exists j, a. repeat split; try assumption.
    cbn. by rewrite Hname.
  - intros j a Hj Ha Hid Hu.
    destruct (jobs_joined_applied _ u j a Hj Ha Hid Hu) as [c Hin].
    exists (user_job_row {| jr_job := j; jr_company := c; jr_app := Some a |}).
    split; [| by split].
    apply in_map_iff. eexists. split; [reflexivity |].
    apply filter_In. split; [exact Hin |].
    unfold of_user. cbn. apply String.eqb_eq. exact Hu.
Qed.

Lemma filter_map_swap {A B} (f : B -> bool) (g : A -> B) (l : list A) :
  List.filter f (map g l) = map g (List.filter (fun a => f (g a)) l).
Proof.
  induction l as [|a l IH]; [reflexivity |].
  cbn. destruct (f (g a)); cbn; by rewrite IH.
Qed.

Lemma applied_of_user (d : database) (u : string) (x : joined) :
  In x (jobs_joined d (Some u)) -> applied d u (listing_row x) = of_user u x.
Proof.
  intros Hx. apply jobs_joined_in in Hx as [_ Ha].
  unfold applied, of_user. rewrite listing_row_id.
  destruct (jr_app x) as [a |].
  - destruct Ha as [Hin [Hid Hu]]. cbn. rewrite (proj2 (String.eqb_eq _ _) Hu).
    apply existsb_exists. exists a. split; [exact Hin |].
    apply andb_true_intro. split; [by apply Z.eqb_eq | by apply String.eqb_eq].
  - apply Bool.not_true_iff_false. intros E.
    apply existsb_exists in E as [a [Hin Hon]].
    apply andb_prop in Hon as [Hid Hu].
    apply Z.eqb_eq in Hid. apply String.eqb_eq in Hu.
    by apply (Ha a Hin Hid).
Qed.

(** C2, as the code has it: on the columns both select, the rows of
    [findUserJobs] are those rows of [findAll] without criteria whose job
    the user has applied to. *)
Theorem findAll_no_criteria_vs_findUserJobs (u : string) (w : world) :
  exists every mine,
    fst (findAll ∅ (VStr u) w) = Ok every
    /\ fst (findUserJobs (VStr u) w) = Ok mine
    /\ map (restrict shared_columns) mine
       = map (restrict shared_columns)
           (List.filter (applied (storage w) u) every).
Proof.
  eexists _, _. split; [apply findAll_no_criteria |].
  split; [by rewrite findUserJobs_rows |].
  cbn [text_param]. rewrite filter_map_swap, !map_map.
  rewrite (filter_ext_in (fun x => applied (storage w) u (listing_row x)) (of_user u))
    by apply applied_of_user.
  reflexivity.
Qed.

End Storage.

(** ** The properties at concrete inputs *)

Section Instances.

Import Job Sample.

(** C2 as stated fails: nobody has applied to the three jobs, the search
    without criteria lists them all and [findUserJobs] lists none. *)
Lemma findAll_no_criteria_differs :
  fst (@findUserJobs host alice (start three_jobs)) = Ok []
  /\ (exists r rest, fst (@findAll host ∅ alice (start three_jobs)) = Ok (r :: rest))
  /\ fst (@findAll host ∅ alice (start three_jobs))
     <> fst (@findUserJobs host alice (start three_jobs)).
Proof.
  split; [vm_compute; reflexivity |].
  split; [eexists _, _; vm_compute; reflexivity |].
  vm_compute. discriminate.
Qed.

(** C3 as stated fails: three jobs are stored, nobody has applied, and
    [findUserJobs] returns no row: the first job is not among them. *)
Lemma findUserJobs_filters_jobs :
  exists rows,
    fst (@findUserJobs host alice (start three_jobs)) = Ok rows
    /\ rows = []
    /\ exists j, In j (jobs three_jobs)
                 /\ ~ exists r, In r rows /\ row_id r = Some (j_id j).
Proof.
  exists []. split; [vm_compute; reflexivity |]. split; [reflexivity |].
  exists (job_of 1 "Clerk" 50000). split; [left; reflexivity |].
  intros [r [[] _]].
Qed.

Lemma missing_job_not_found_witness :
  let data := [("title", VStr "Engineer")] in
  let w := start three_jobs in
  (forall j, In j (jobs (storage w)) -> j_id j <> 9)
  /\ data <> [] /\ NoDup (map fst data) /\ Forall (@settable host) data
  /\ (exists e w', @findOne host (VInt 9) w = (Err e, w')
                   /\ not_found e /\ storage w' = storage w)
  /\ (exists e w', @update host (VInt 9) data w = (Err e, w')
                   /\ not_found e /\ storage w' = storage w)
  /\ (exists e w', @remove host (VInt 9) w = (Err e, w')
                   /\ not_found e /\ storage w' = storage w).
Proof.
  intros data w.
  assert (H1 : forall j, In j (jobs (storage w)) -> j_id j <> 9).
  { intros j [<- | [<- | [<- | []]]] [=]. }
  assert (H2 : data <> []) by discriminate.
  assert (H3 : NoDup (map fst data)).
  { apply NoDup_singleton. }
  assert (H4 : Forall (@settable host) data).
  { constructor; [| constructor]. split; [right; left; reflexivity |].
    eexists. reflexivity. }
  split; [exact H1 |]. split; [exact H2 |]. split; [exact H3 |].
  split; [exact H4 |].
  exact (@missing_job_not_found host 9 data w H1 H2 H3 H4).
Defined.

Lemma apply_missing_job_witness :
  let w := start three_jobs in
  let w' := {| storage := storage w;
               issued := (issued w ++ [(SelectJobId, [VInt 7])])%list |} in
  (forall j, In j (jobs (storage w)) -> j_id j <> 7)
  /\ @Job.apply host (VInt 7) alice (VStr "applied") w
     = (Err (JsError ("There exists no job '" ++ @to_string host (VInt 7)) 404), w')
  /\ applications (storage w') = applications (storage w).
Proof.
  intros w w'.
  assert (H1 : forall j, In j (jobs (storage w)) -> j_id j <> 7).
  { intros j [<- | [<- | [<- | []]]] [=]. }
  split; [exact H1 |].
  exact (@apply_missing_job host 7 alice (VStr "applied") w H1).
Defined.

Lemma findSome_window_witness :
  let data : gmap string value := {[ "offset" := VInt 1; "amt" := VInt 1 ]} in
  let w := start three_jobs in
  get data "offset" = VInt 1 /\ get data "amt" = VInt 1 /\ 0 <= 1
  /\ (exists listing ordered rows w',
        fst (@findAll host ∅ alice w) = Ok listing
        /\ Permutation ordered listing
        /\ Sorted id_le ordered
        /\ (forall j, In j (jobs (storage w)) ->
              exists r, In r ordered /\ row_id r = Some (j_id j))
        /\ (forall r, In r ordered ->
              exists j, In j (jobs (storage w))
                /\ row_id r = Some (j_id j)
                /\ row_get r "title" = VStr (j_title j)
                /\ row_get r "company_handle" = VStr (j_company_handle j)
                /\ row_get r "salary" = opt_num (j_salary j)
                /\ row_get r "equity" = opt_num (j_equity j)
                /\ ((exists a, In a (applications (storage w))
                               /\ a_job_id a = j_id j
                               /\ @text_param host alice = Some (a_username a)
                               /\ row_get r "state" = opt_str (a_state a))
                    \/ ((forall a, In a (applications (storage w)) ->
                            ~ (a_job_id a = j_id j
                               /\ @text_param host alice = Some (a_username a)))
                        /\ row_get r "state" = VNull)))
        /\ (NoDup (map c_handle (companies (storage w))) ->
            NoDup (map (fun a => (a_job_id a, a_username a))
                     (applications (storage w))) ->
            Permutation (map row_id ordered)
              (map (fun j => Some (j_id j)) (jobs (storage w))))
        /\ @findSome host data alice w
           = (Ok (rows, VInt (Z.of_nat (length (jobs (storage w))))), w')
        /\ rows = firstn (Z.to_nat 1) (skipn (Z.to_nat 1) ordered)
        /\ (length rows <= Z.to_nat 1)%nat
        /\ Sorted id_le rows
        /\ storage w' = storage w)
  /\ exists r,
       fst (@findSome host data alice w) = Ok ([r], VInt 3)
       /\ row_id r = Some 2
       /\ row_get r "title" = VStr "Developer"
       /\ row_get r "salary" = VInt 70000.
Proof.
  intros data w.
  assert (H1 : get data "offset" = VInt 1) by (vm_compute; reflexivity).
  assert (H2 : get data "amt" = VInt 1) by (vm_compute; reflexivity).
  assert (H3 : 0 <= 1) by discriminate.
  pose proof (@findSome_window host data alice 1 1 w H1 H2 H3 H3) as Hpage.
  split; [exact H1 |]. split; [exact H2 |]. split; [exact H3 |].
  split; [exact Hpage |].
  destruct Hpage
    as (listing & ordered & rows & w' & _ & _ & Hs & _ & Hrow & Hone & Hrun & Hrows & _).
  assert (Hids : Permutation (map row_id ordered) [Some 1; Some 2; Some 3]).
  { apply Hone; [apply NoDup_singleton | apply NoDup_nil_2]. }
  pose proof (Permutation_length Hids) as Hlen. rewrite length_map in Hlen.
  destruct ordered as [|r1 [|r2 [|r3 [|r4 rest]]]]; try discriminate Hlen.
  apply Sorted_inv in Hs as [Hs Hd1]. apply HdRel_inv in Hd1.
  apply Sorted_inv in Hs as [_ Hd2]. apply HdRel_inv in Hd2.
  destruct Hd1 as (i1 & i2 & E1 & E2 & H12).
  destruct Hd2 as (i2' & i3 & E2' & E3 & H23).
  rewrite E2 in E2'. injection E2' as <-.
  cbn [map] in Hids. rewrite E1, E2, E3 in Hids.
  assert (Hin : forall k, In (Some k) [Some 1; Some 2; Some 3] ->
                  In (Some k) [Some i1; Some i2; Some i3])
    by (intros k; apply (Permutation_in _ (Permutation_sym Hids))).
  assert (Hmid : i2 = 2).
  { pose proof (Hin 1 (or_introl eq_refl)) as K1.
    pose proof (Hin 2 (or_intror (or_introl eq_refl))) as K2.
    pose proof (Hin 3 (or_intror (or_intror (or_introl eq_refl)))) as K3.
    cbn in K1, K2, K3.
    destruct K1 as [[= K1] | [[= K1] | [[= K1] | []]]];
      destruct K2 as [[= K2] | [[= K2] | [[= K2] | []]]];
      destruct K3 as [[= K3] | [[= K3] | [[= K3] | []]]]; lia. }
  subst i2. cbn in Hrows. subst rows.
  exists r2. rewrite Hrun. split; [reflexivity |]. split; [exact E2 |].
  destruct (Hrow r2 (or_intror (or_introl eq_refl)))
    as (j & Hj & Eid & Etitle & _ & Esalary & _).
  rewrite E2 in Eid. injection Eid as Eid.
  destruct Hj as [<- | [<- | [<- | []]]]; try discriminate Eid.
  by split.
Defined.

Lemma create_then_findOne_witness :
  let data : gmap string value :=
    {[ "title" := VStr "Welder"; "salary" := VInt 60000; "equity" := VNull;
       "company_handle" := VStr "acme" ]} in
  let w := start three_jobs in
  get data "title" = VStr "Welder"
  /\ number_or_null (get data "salary")
  /\ number_or_null (get data "equity")
  /\ get data "company_handle" = VStr "acme"
  /\ (exists c, In c (companies (storage w)) /\ c_handle c = "acme")
  /\ Forall (fun j => j_id j < jobs_id_seq (storage w)) (jobs (storage w))
  /\ exists created w1 found w2,
       @create host data w = (Ok (Some created), w1)
       /\ @findOne host (row_get created "id") w1 = (Ok found, w2)
       /\ Forall (fun k => row_get (fields found) k = get data k)
            ["title"; "salary"; "equity"; "company_handle"].
Proof.
  intros data w.
  assert (H1 : get data "title" = VStr "Welder") by (vm_compute; reflexivity).
  assert (H2 : number_or_null (get data "salary")).
  { right. eexists. vm_compute. reflexivity. }
  assert (H3 : number_or_null (get data "equity")).
  { left. vm_compute. reflexivity. }
  assert (H4 : get data "company_handle" = VStr "acme") by (vm_compute; reflexivity).
  assert (H5 : exists c, In c (companies (storage w)) /\ c_handle c = "acme").
  { exists acme. split; [left |]; reflexivity. }
  assert (H6 : Forall (fun j => j_id j < jobs_id_seq (storage w)) (jobs (storage w))).
  { repeat constructor. }
  split; [exact H1 |]. split; [exact H2 |]. split; [exact H3 |].
  split; [exact H4 |]. split; [exact H5 |]. split; [exact H6 |].
  exact (@create_then_findOne host data "Welder" "acme" w H1 H2 H3 H4 H5 H6).
Defined.


(** Three jobs paying 50000, 70000 and 90000: the page of one row after
    the first holds the second job and the count is 3. *)
Example findSome_second_of_three :
  let data : gmap string value := {[ "offset" := VInt 1; "amt" := VInt 1 ]} in
  exists r,
    fst (@findSome host data alice (start three_jobs)) = Ok ([r], VInt 3)
    /\ row_id r = Some 2
    /\ row_get r "salary" = VInt 70000.
Proof. eexists. repeat split; vm_compute; reflexivity. Qed.

(** Applying, withdrawing, and withdrawing once more: the last fails with
    status 404. *)
Example apply_then_unapply_twice :
  let w0 := start three_jobs in
  let w1 := snd (@Job.apply host (VInt 2) alice (VStr "applied") w0) in
  let w2 := snd (@unapply host (VInt 2) alice w1) in
  fst (@Job.apply host (VInt 2) alice (VStr "applied") w0) = Ok tt
  /\ map a_job_id (applications (storage w1)) = [2]
  /\ fst (@unapply host (VInt 2) alice w1) = Ok tt
  /\ applications (storage w2) = []
  /\ fst (@unapply host (VInt 2) alice w2)
     = Err (JsError "There exists no application for job '2" 404).
Proof. repeat split; vm_compute; reflexivity. Qed.

End Instances.


(** ** Further properties of [findAll] *)

Section Search.
Context `{Host}.

Import Job.

(** The text of the statement depends on which criteria are present and on
    nothing else: what the caller supplies reaches the parameters only. *)
Theorem findAll_text_by_presence (data data' : gmap string value)
  (username username' : value) :
  criteria data = criteria data' ->
  finalQuery (fst (findAll_terms data username))
  = finalQuery (fst (findAll_terms data' username')).
Proof.
  unfold criteria, findAll_terms. cbn [List.filter guard].
  destruct (truthy (get data "min_salary"));
    destruct (truthy (get data "max_equity"));
    destruct (truthy (get data "search"));
    destruct (truthy (get data' "min_salary"));
    destruct (truthy (get data' "max_equity"));
    destruct (truthy (get data' "search"));
    intros E; try discriminate E; reflexivity.
Qed.

(** The values handed over are as many as the highest parameter the text
    names, so the statement is never refused for its parameter count. *)
Theorem findAll_parameters_supplied (data : gmap string value)
  (username : value) (w : world) :
  parameters (fst (findAll_terms data username))
  = length (snd (findAll_terms data username))
  /\ fst (findAll data username w) <> Err (DbError ParameterCount).
Proof.
  unfold findAll, findAll_terms.
  destruct (truthy (get data "min_salary"));
    destruct (truthy (get data "max_equity"));
    destruct (truthy (get data "search"));
    (split; [reflexivity | cbn; discriminate]).
Qed.

(** With a salary or an equity criterion present the statement names a
    column that is not in scope: [findAll] throws the storage error and
    the storage is as before. *)
Theorem findAll_threshold_rejected (data : gmap string value)
  (username : value) (w : world) :
  truthy (get data "min_salary") = true \/ truthy (get data "max_equity") = true ->
  exists c,
    In c ["min_salary"; "min_equity"]
    /\ fst (findAll data username w) = Err (DbError (UndefinedColumn c))
    /\ storage (snd (findAll data username w)) = storage w.
Proof.
  unfold findAll, findAll_terms.
  destruct (truthy (get data "min_salary"));
    destruct (truthy (get data "max_equity"));
    destruct (truthy (get data "search"));
    intros [E | E]; try discriminate E;
    first [ exists "min_salary"; split; [by left |]; split; reflexivity
          | exists "min_equity"; split; [by right; left |]; split; reflexivity ].
Qed.

(** With the title search as the only criterion present, [findAll] returns
    the rows of the listing whose title matches the term wrapped in
    wildcards, and no other. *)
Theorem findAll_search_only (data : gmap string value) (username : value) (w : world) :
  truthy (get data "min_salary") = false ->
  truthy (get data "max_equity") = false ->
  truthy (get data "search") = true ->
  fst (findAll data username w)
  = Ok (map listing_row
          (List.filter (title_like (get data "search"))
             (jobs_joined (storage w) (text_param username)))).
Proof.
  intros Hs He Hq. unfold findAll, findAll_terms. rewrite Hs, He, Hq.
  unfold bind, db_query, run, select_jobs. cbn.
  do 2 f_equal. apply filter_ext. intros x.
  unfold title_like. by rewrite andb_true_r.
Qed.

End Search.

(** ** Further properties of the methods on the storage *)

Section Lifecycle.
Context `{Host}.

Import Job.

Lemma with_applications_same (d : database) : with_applications d (applications d) = d.
Proof. by destruct d. Qed.

Lemma inner_join_in {A B} (on : A -> B -> bool) (l : list A) (r : list B) a b :
  In (a, b) (inner_join on l r) <-> In a l /\ In b r /\ on a b = true.
Proof.
  unfold inner_join. rewrite in_flat_map. split.
  - intros [a' [Ha Hin]]. apply in_map_iff in Hin as [b' [[= <- <-] Hb]].
    apply filter_In in Hb. tauto.
  - intros [Ha [Hb Hon]]. exists a. split; [exact Ha |].
    apply in_map_iff. exists b. split; [reflexivity |]. by apply filter_In.
Qed.

(** What an INSERT into jobs leaves behind: nothing, a used identifier, or
    the new job under the identifier the generator held. *)
Lemma insert_job_outcome (values : list value) (d : database) :
  (exists e, fst (insert_job values d) = Err e
             /\ (snd (insert_job values d) = d \/ snd (insert_job values d) = next_id d))
  \/ (exists j, fst (insert_job values d) = Ok [returned_job j]
                /\ j_id j = jobs_id_seq d
                /\ has_job (jobs d) (jobs_id_seq d) = false
                /\ has_company d (j_company_handle j) = true
                /\ snd (insert_job values d) = with_jobs (next_id d) (jobs d ++ [j])%list).
Proof.
  unfold insert_job. repeat case_match; subst; cbn [fst snd j_id j_company_handle] in *;
    first [ left; eexists; split; [reflexivity | by auto]
          | right; eexists; repeat split; eauto ].
Qed.

Lemma create_run (data : gmap string value) (w : world) :
  let values := [get data "title"; get data "salary"; get data "equity";
                 get data "company_handle"] in
  create data w
  = (match fst (insert_job values (storage w)) with
     | Ok rows => Ok (head rows)
     | Err e => Err e
     end,
     {| storage := snd (insert_job values (storage w));
        issued := (issued w ++ [(InsertJob, values)])%list |}).
Proof.
  unfold create, bind, db_query, run. cbv zeta.
  by destruct (insert_job _ (storage w)) as [[rows | e] d'].
Qed.

Lemma returned_job_id (j : job) : row_id (returned_job j) = Some (j_id j).
Proof. reflexivity. Qed.

(** [create] keeps the identifiers sound: distinct, and below what the
    generator hands out next.  It writes neither companies nor
    applications, and it removes no job. *)
Theorem create_keeps_ids_sound (data : gmap string value) (w : world) :
  ids_sound (storage w) ->
  let d' := storage (snd (create data w)) in
  ids_sound d'
  /\ companies d' = companies (storage w)
  /\ applications d' = applications (storage w)
  /\ (forall j, In j (jobs (storage w)) -> In j (jobs d')).
Proof.
  intros [Hlt Hnd]. cbv zeta. rewrite create_run. cbn [snd storage].
  destruct (insert_job_outcome
              [get data "title"; get data "salary"; get data "equity";
               get data "company_handle"] (storage w))
    as [[e [_ [-> | ->]]] | [j [_ [Hid [_ [_ ->]]]]]].
  - by repeat split.
  - repeat split; try done. cbn. eapply Forall_impl; [exact Hlt |].
    cbn. intros; lia.
  - repeat split; cbn [with_jobs next_id jobs companies applications jobs_id_seq].
    + apply Forall_app. split.
      * eapply Forall_impl; [exact Hlt |]. cbn. intros; lia.
      * repeat constructor. lia.
    + rewrite map_app. apply NoDup_app. split; [exact Hnd |]. split.
      * intros i Hi Hj. cbn in Hj. apply list_elem_of_singleton in Hj.
        apply list_elem_of_In, in_map_iff in Hi as [j' [<- Hj']].
        rewrite Forall_forall in Hlt. apply list_elem_of_In, Hlt in Hj'. lia.
      * apply NoDup_singleton.
    + intros j' Hj'. apply in_or_app. by left.
Qed.

(** Two creations in a row that both succeed return rows with different
    identifiers, the second above the first. *)
Theorem create_twice_distinct (data1 data2 : gmap string value)
  (w w1 w2 : world) (r1 r2 : row) :
  create data1 w = (Ok (Some r1), w1) ->
  create data2 w1 = (Ok (Some r2), w2) ->
  exists i1 i2, row_id r1 = Some i1 /\ row_id r2 = Some i2 /\ i1 < i2.
Proof.
  rewrite !create_run. intros [= E1 <-] [= E2 _]. cbn [storage] in E2.
  destruct (insert_job_outcome
              [get data1 "title"; get data1 "salary"; get data1 "equity";
               get data1 "company_handle"] (storage w))
    as [[e [He _]] | [j1 [Hr1 [Hid1 [_ [_ Hd1]]]]]];
    [rewrite He in E1; discriminate E1 |].
  rewrite Hr1 in E1. injection E1 as <-.
  rewrite Hd1 in E2.
  destruct (insert_job_outcome
              [get data2 "title"; get data2 "salary"; get data2 "equity";
               get data2 "company_handle"]
              (with_jobs (next_id (storage w)) (jobs (storage w) ++ [j1])))
    as [[e [He _]] | [j2 [Hr2 [Hid2 _]]]];
    [rewrite He in E2; discriminate E2 |].
  rewrite Hr2 in E2. injection E2 as <-.
  exists (j_id j1), (j_id j2). rewrite !returned_job_id.
  repeat split. rewrite Hid1, Hid2. cbn. lia.
Qed.

(** When the company handle of the data is a text that no stored company
    has, [create] throws a storage error, never one of status 404, and
    stores no job. *)
Theorem create_unknown_company (data : gmap string value) (h : string) (w : world) :
  get data "company_handle" = VStr h ->
  (forall c, In c (companies (storage w)) -> c_handle c <> h) ->
  exists e w',
    create data w = (Err (DbError e), w')
    /\ jobs (storage w') = jobs (storage w)
    /\ companies (storage w') = companies (storage w)
    /\ applications (storage w') = applications (storage w).
Proof.
  intros Hh Hno.
  assert (Hc : has_company (storage w) h = false).
  { apply Bool.not_true_iff_false. intros E.
    apply existsb_exists in E as [c [Hin Heq]].
    apply String.eqb_eq in Heq. by apply (Hno c). }
  rewrite create_run. unfold insert_job, numeric_param.
  cbn [arity_is length Nat.eqb rbind param lookup list_lookup].
  rewrite Hh. cbn [text_param].
  repeat case_match; cbn [rbind fst snd] in *; simplify_eq;
    try congruence; by eexists _, _.
Qed.

(** *** Applications *)

Lemma of_pair_true (i : Z) (u : string) (a : application) :
  of_pair i u a = true <-> a_job_id a = i /\ a_username a = u.
Proof.
  unfold of_pair. cbn. rewrite andb_true_iff, Z.eqb_eq, String.eqb_eq. tauto.
Qed.

Lemma has_job_in (js : list job) (i : Z) :
  has_job js i = true <-> exists j, In j js /\ j_id j = i.
Proof.
  unfold has_job. rewrite existsb_exists.
  split; intros [j [Hj E]]; exists j; (split; [exact Hj |]); by apply Z.eqb_eq.
Qed.

Lemma unapply_run (i : Z) (u : string) (w : world) :
  unapply (VInt i) (VStr u) w
  = (match List.filter (of_pair i u) (applications (storage w)) with
     | [] => Err (JsError ("There exists no application for job '"
                           ++ to_string (VInt i)) 404)
     | _ :: _ => Ok tt
     end,
     {| storage := with_applications (storage w)
                     (List.filter (fun a => negb (of_pair i u a))
                        (applications (storage w)));
        issued := (issued w ++ [(DeleteApplication, [VInt i; VStr u])])%list |}).
Proof.
  unfold unapply, bind, db_query, run, delete_application.
  cbn [arity_is length Nat.eqb rbind param lookup list_lookup].
  rewrite integer_param_VInt. cbn [rbind text_param].
  fold (of_pair i u).
  by destruct (List.filter (of_pair i u) (applications (storage w))).
Qed.

Lemma apply_run (i : Z) (u : string) (state : value) (w : world) :
  has_job (jobs (storage w)) i = true ->
  Job.apply (VInt i) (VStr u) state w
  = (Ok tt,
     {| storage := with_applications (storage w)
                     (applications (storage w) ++ [application_of i u state])%list;
        issued := ((issued w ++ [(SelectJobId, [VInt i])])
                     ++ [(InsertApplication, [VInt i; VStr u; state])])%list |}).
Proof.
  intros Hj. unfold Job.apply, bind, db_query, run, select_job_id.
  cbn [arity_is length Nat.eqb rbind param lookup list_lookup].
  rewrite integer_param_VInt. cbn [rbind].
  destruct (List.filter (fun j => same_id (Some i) (j_id j)) (jobs (storage w)))
    as [|j0 hit] eqn:E.
  { exfalso. apply has_job_in in Hj as [j [Hin Hid]].
    assert (Hf : In j (List.filter (fun j => same_id (Some i) (j_id j))
                         (jobs (storage w)))).
    { apply filter_In. split; [exact Hin |]. cbn. by apply Z.eqb_eq. }
    rewrite E in Hf. destruct Hf. }
  cbn [map length Nat.eqb storage]. unfold insert_application.
  cbn [arity_is length Nat.eqb rbind param lookup list_lookup].
  rewrite integer_param_VInt. cbn [rbind text_param].
  by rewrite Hj.
Qed.

(** On a job that is stored and for which the user has no application,
    [apply] returns and records one application more, of that user for that
    job with the state given, the only one of that user for that job;
    jobs, companies and the generator are as before. *)
Theorem apply_existing_job (i : Z) (u : string) (state : value) (w : world) :
  (exists j, In j (jobs (storage w)) /\ j_id j = i) ->
  (forall a, In a (applications (storage w)) ->
     ~ (a_job_id a = i /\ a_username a = u)) ->
  exists w',
    Job.apply (VInt i) (VStr u) state w = (Ok tt, w')
    /\ applications (storage w')
       = (applications (storage w) ++ [application_of i u state])%list
    /\ List.filter (of_pair i u) (applications (storage w'))
       = [application_of i u state]
    /\ jobs (storage w') = jobs (storage w)
    /\ companies (storage w') = companies (storage w)
    /\ jobs_id_seq (storage w') = jobs_id_seq (storage w).
Proof.
  intros Hj Hno. apply has_job_in in Hj.
  eexists. split; [by apply apply_run |].
  cbn [storage with_applications applications jobs companies jobs_id_seq].
  split; [reflexivity |]. split; [| by repeat split].
  rewrite List.filter_app, filter_none.
  - cbn [List.filter app].
    by rewrite (proj2 (of_pair_true i u (application_of i u state))).
  - intros a Ha. apply Bool.not_true_iff_false. rewrite of_pair_true.
    by apply Hno.
Qed.

(** When the user has no application for the job, [unapply] throws an
    error of status 404 and the storage is as before. *)
Theorem unapply_missing_application (i : Z) (u : string) (w : world) :
  (forall a, In a (applications (storage w)) ->
     ~ (a_job_id a = i /\ a_username a = u)) ->
  unapply (VInt i) (VStr u) w
  = (Err (JsError ("There exists no application for job '" ++ to_string (VInt i)) 404),
     {| storage := storage w;
        issued := (issued w ++ [(DeleteApplication, [VInt i; VStr u])])%list |}).
Proof.
  intros Hno. rewrite unapply_run.
  assert (Hf : forall a, In a (applications (storage w)) -> of_pair i u a = false).
  { intros a Ha. apply Bool.not_true_iff_false. rewrite of_pair_true. by apply Hno. }
  rewrite (filter_none _ _ Hf).
  rewrite filter_all by (intros a Ha; by rewrite (Hf a Ha)).
  by rewrite with_applications_same.
Qed.

(** [unapply] returns exactly when the user has an application for the
    job; it removes every application of that user for that job, keeps
    every other one, and writes no other table. *)
Theorem unapply_removes_exactly (i : Z) (u : string) (w : world) :
  let r := fst (unapply (VInt i) (VStr u) w) in
  let d' := storage (snd (unapply (VInt i) (VStr u) w)) in
  (r = Ok tt <-> exists a, In a (applications (storage w))
                           /\ a_job_id a = i /\ a_username a = u)
  /\ (forall a, In a (applications d') <->
                In a (applications (storage w))
                /\ ~ (a_job_id a = i /\ a_username a = u))
  /\ jobs d' = jobs (storage w)
  /\ companies d' = companies (storage w)
  /\ jobs_id_seq d' = jobs_id_seq (storage w).
Proof.
  cbv zeta. rewrite unapply_run. cbn [fst snd storage].
  split; [| split; [| by repeat split]].
  - destruct (List.filter (of_pair i u) (applications (storage w))) as [|a l] eqn:E.
    + split; [discriminate |]. intros [a [Ha Hm]].
      assert (Hf : In a (List.filter (of_pair i u) (applications (storage w))))
        by (apply filter_In; split; [exact Ha | by apply of_pair_true]).
      rewrite E in Hf. destruct Hf.
    + split; [| reflexivity]. intros _. exists a.
      assert (Hf : In a (List.filter (of_pair i u) (applications (storage w))))
        by (rewrite E; by left).
      apply filter_In in Hf as [Ha Hm]. apply of_pair_true in Hm. tauto.
  - intros a. cbn [with_applications applications].
    rewrite filter_In, negb_true_iff, <- Bool.not_true_iff_false, of_pair_true.
    tauto.
Qed.

(** Applying to a stored job for which the user has no application and
    then withdrawing gives back the storage there was. *)
Theorem apply_then_unapply (i : Z) (u : string) (state : value) (w : world) :
  (exists j, In j (jobs (storage w)) /\ j_id j = i) ->
  (forall a, In a (applications (storage w)) ->
     ~ (a_job_id a = i /\ a_username a = u)) ->
  exists w1 w2,
    Job.apply (VInt i) (VStr u) state w = (Ok tt, w1)
    /\ unapply (VInt i) (VStr u) w1 = (Ok tt, w2)
    /\ storage w2 = storage w.
Proof.
  intros Hj Hno. apply has_job_in in Hj.
  eexists _, _. split; [by apply apply_run |].
  rewrite unapply_run. cbn [storage with_applications applications].
  assert (Hf : forall a, In a (applications (storage w)) -> of_pair i u a = false).
  { intros a Ha. apply Bool.not_true_iff_false. rewrite of_pair_true. by apply Hno. }
  assert (Hnew : of_pair i u (application_of i u state) = true)
    by (by apply of_pair_true).
  rewrite !List.filter_app, (filter_none _ _ Hf).
  rewrite (filter_all (fun a => negb (of_pair i u a)) (applications (storage w)))
    by (intros a Ha; by rewrite (Hf a Ha)).
  cbn [List.filter]. rewrite Hnew. cbn [negb app].
  split; [reflexivity |]. cbn [storage]. rewrite app_nil_r.
  by destruct (storage w).
Qed.

(** After [apply] on a stored job for which the user had no application,
    [findUserJobs] for that user lists the job with the state that was
    given, and every row it lists for that job carries that state. *)
Theorem apply_then_findUserJobs (j : job) (u : string) (state : value) (w : world) :
  In j (jobs (storage w)) ->
  (forall a, In a (applications (storage w)) ->
     ~ (a_job_id a = j_id j /\ a_username a = u)) ->
  exists w1 rows r,
    Job.apply (VInt (j_id j)) (VStr u) state w = (Ok tt, w1)
    /\ fst (findUserJobs (VStr u) w1) = Ok rows
    /\ In r rows
    /\ row_id r = Some (j_id j)
    /\ row_get r "title" = VStr (j_title j)
    /\ row_get r "state" = opt_str (text_param state)
    /\ (forall r', In r' rows -> row_id r' = Some (j_id j) ->
          row_get r' "state" = opt_str (text_param state)).
Proof.
  intros Hj Hno.
  assert (Hhas : has_job (jobs (storage w)) (j_id j) = true)
    by (apply has_job_in; by exists j).
  set (a := application_of (j_id j) u state).
  set (d1 := with_applications (storage w) (applications (storage w) ++ [a])%list).
  destruct (jobs_joined_applied d1 u j a) as [c Hin]; try done.
  { cbn. apply in_or_app. right. by left. }
  eexists _, _, (user_job_row {| jr_job := j; jr_company := c; jr_app := Some a |}).
  split; [by apply apply_run |].
  rewrite findUserJobs_rows. cbn [fst storage]. fold a. fold d1.
  split; [reflexivity |]. split.
  { apply in_map_iff. eexists. split; [reflexivity |].
    apply filter_In. split; [exact Hin |]. unfold of_user. cbn.
    apply String.eqb_refl. }
  do 3 (split; [reflexivity |]).
  intros r' Hr' Hid.
  apply in_map_iff in Hr' as [x [<- Hx]].
  apply filter_In in Hx as [Hx Hu].
  apply jobs_joined_in in Hx as [_ Ha].
  unfold of_user in Hu. destruct (jr_app x) as [a' |] eqn:Eapp; [| discriminate Hu].
  destruct Ha as [Ha' [Hid' Hname]].
  change (row_id (user_job_row x)) with (Some (j_id (jr_job x))) in Hid.
  injection Hid as Hid.
  change (row_get (user_job_row x) "state") with (opt_str (jr_app x ≫= a_state)).
  rewrite Eapp. cbn [mbind option_bind].
  unfold d1 in Ha'. cbn [with_applications applications] in Ha'.
  apply in_app_or in Ha' as [Hold | [<- | []]]; [| reflexivity].
  exfalso. apply (Hno a' Hold). split; congruence.
Qed.

(** *** Removing and reading one job *)

Lemma findOne_no_job (i : Z) (w : world) :
  (forall j, In j (jobs (storage w)) -> j_id j <> i) ->
  findOne (VInt i) w
  = (Err (JsError ("There exists no job '" ++ to_string (VInt i) ++ "'") 404),
     {| storage := storage w;
        issued := (issued w ++ [(SelectJob, [VInt i])])%list |}).
Proof.
  intros Hno. unfold findOne, bind, db_query, run, select_job.
  cbn [arity_is length Nat.eqb rbind param lookup list_lookup].
  rewrite integer_param_VInt. cbn [rbind].
  rewrite filter_none; [reflexivity |].
  intros [j c] Hin. apply inner_join_in in Hin as [Hj _].
  cbn. apply Z.eqb_neq. by apply Hno.
Qed.

Lemma remove_run (i : Z) (w : world) :
  has_job (jobs (storage w)) i = true ->
  existsb (fun a => same_id (Some i) (a_job_id a)) (applications (storage w)) = false ->
  remove (VInt i) w
  = (Ok tt,
     {| storage := with_jobs (storage w)
                     (List.filter (fun j => negb (same_id (Some i) (j_id j)))
                        (jobs (storage w)));
        issued := (issued w ++ [(DeleteJob, [VInt i])])%list |}).
Proof.
  intros Hj Ha. unfold remove, bind, db_query, run, delete_job.
  cbn [arity_is length Nat.eqb rbind param lookup list_lookup].
  rewrite integer_param_VInt.
  destruct (List.filter (fun j => same_id (Some i) (j_id j)) (jobs (storage w)))
    as [|j0 hit] eqn:E.
  { exfalso. apply has_job_in in Hj as [j [Hin Hid]].
    assert (Hf : In j (List.filter (fun j => same_id (Some i) (j_id j))
                         (jobs (storage w)))).
    { apply filter_In. split; [exact Hin |]. cbn. by apply Z.eqb_eq. }
    rewrite E in Hf. destruct Hf. }
  by rewrite Ha.
Qed.

(** On a stored job that no application refers to, [remove] returns; the
    job is gone, every other job is kept, the other tables are as before,
    and [findOne] on the identifier then throws an error of status 404. *)
Theorem remove_existing_job (i : Z) (w : world) :
  (exists j, In j (jobs (storage w)) /\ j_id j = i) ->
  (forall a, In a (applications (storage w)) -> a_job_id a <> i) ->
  exists w1,
    remove (VInt i) w = (Ok tt, w1)
    /\ (forall j, In j (jobs (storage w1)) <->
                  In j (jobs (storage w)) /\ j_id j <> i)
    /\ companies (storage w1) = companies (storage w)
    /\ applications (storage w1) = applications (storage w)
    /\ exists e w2, findOne (VInt i) w1 = (Err e, w2) /\ not_found e.
Proof.
  intros Hj Hno. apply has_job_in in Hj.
  assert (Ha : existsb (fun a => same_id (Some i) (a_job_id a))
                 (applications (storage w)) = false).
  { apply Bool.not_true_iff_false. intros E.
    apply existsb_exists in E as [a [Hin Heq]].
    cbn in Heq. apply Z.eqb_eq in Heq. by apply (Hno a). }
  assert (Hjobs : forall j,
            In j (List.filter (fun j => negb (same_id (Some i) (j_id j)))
                    (jobs (storage w)))
            <-> In j (jobs (storage w)) /\ j_id j <> i).
  { intros j. rewrite filter_In. cbn. by rewrite negb_true_iff, Z.eqb_neq. }
  eexists. split; [by apply remove_run |].
  cbn [storage with_jobs jobs companies applications].
  split; [exact Hjobs |]. split; [reflexivity |]. split; [reflexivity |].
  eexists _, _. split; [| by eexists].
  apply findOne_no_job. cbn [storage with_jobs jobs].
  intros j Hin. by apply Hjobs in Hin as [_ Hne].
Qed.

Lemma NoDup_map_same {A B} (f : A -> B) (l : list A) (x y : A) :
  NoDup (map f l) -> In x l -> In y l -> f x = f y -> x = y.
Proof.
  induction l as [|a l IH]; [intros _ [] |].
  cbn [map]. rewrite NoDup_cons. intros [Hnot Hnd] [-> | Hx] [-> | Hy] E.
  - reflexivity.
  - exfalso. apply Hnot. rewrite E. apply list_elem_of_In, in_map, Hy.
  - exfalso. apply Hnot. rewrite <- E. apply list_elem_of_In, in_map, Hx.
  - by apply IH.
Qed.

(** For a stored job whose company is stored, identifiers and handles
    being distinct, [findOne] returns that job with the name of its
    company and, as its [company] property, the row of that company; the
    storage is not changed. *)
Theorem findOne_existing (j : job) (c : Sql.company) (w : world) :
  In j (jobs (storage w)) ->
  In c (companies (storage w)) ->
  c_handle c = j_company_handle j ->
  NoDup (map j_id (jobs (storage w))) ->
  NoDup (map c_handle (companies (storage w))) ->
  exists w',
    findOne (VInt (j_id j)) w
    = (Ok {| fields := job_row (j, c); company := Some (company_row c) |}, w')
    /\ storage w' = storage w.
Proof.
  intros Hj Hc Hh Hids Hhandles.
  unfold findOne, bind, db_query, run, select_job.
  cbn [arity_is length Nat.eqb rbind param lookup list_lookup].
  rewrite integer_param_VInt. cbn [rbind].
  set (P := fun jc : job * Sql.company => same_id (Some (j_id j)) (j_id (fst jc))).
  assert (Hin : In (j, c) (List.filter P
                   (inner_join on_company (jobs (storage w)) (companies (storage w))))).
  { apply filter_In. split; [| apply Z.eqb_refl].
    apply inner_join_in. repeat split; try done.
    unfold on_company. rewrite <- Hh. apply String.eqb_refl. }
  destruct (List.filter P
              (inner_join on_company (jobs (storage w)) (companies (storage w))))
    as [|[j' c'] rest] eqn:E; [destruct Hin |].
  assert (Hfirst : In (j', c') (List.filter P
                   (inner_join on_company (jobs (storage w)) (companies (storage w)))))
    by (rewrite E; by left).
  apply filter_In in Hfirst as [Hjoin Hid]. apply Z.eqb_eq in Hid. cbn in Hid.
  apply inner_join_in in Hjoin as [Hj' [Hc' Hon]].
  unfold on_company in Hon. apply String.eqb_eq in Hon.
  assert (j' = j) as -> by (by apply (NoDup_map_same j_id (jobs (storage w)))).
  assert (c' = c) as ->
    by (apply (NoDup_map_same c_handle (companies (storage w))); congruence).
  cbn [map]. unfold select_company.
  change (row_get (job_row (j, c)) "company_handle") with (VStr (j_company_handle j)).
  cbn [arity_is length Nat.eqb rbind param lookup list_lookup text_param storage].
  set (Q := fun x : Sql.company => same_text (Some (j_company_handle j)) (c_handle x)).
  assert (Hq : In c (List.filter Q (companies (storage w)))).
  { apply filter_In. split; [exact Hc |]. cbn. by apply String.eqb_eq. }
  destruct (List.filter Q (companies (storage w))) as [|c2 cs] eqn:E2; [destruct Hq |].
  assert (Hc2 : In c2 (List.filter Q (companies (storage w))))
    by (rewrite E2; by left).
  apply filter_In in Hc2 as [Hc2 Hq2]. cbn in Hq2. apply String.eqb_eq in Hq2.
  assert (c2 = c) as ->
    by (apply (NoDup_map_same c_handle (companies (storage w))); congruence).
  eexists. split; reflexivity.
Qed.

(** *** What is written where *)

(** The four reading methods leave the storage as it was, whatever they
    are given and whether they return or throw. *)
Theorem readers_leave_storage (data : gmap string value) (username id : value)
  (w : world) :
  storage (snd (findUserJobs username w)) = storage w
  /\ storage (snd (findAll data username w)) = storage w
  /\ storage (snd (findSome data username w)) = storage w
  /\ storage (snd (findOne id w)) = storage w.
Proof.
  unfold findUserJobs, findAll, findSome, findOne, bind, db_query, run, ret, throw.
  repeat split; repeat case_match; simplify_eq; reflexivity.
Qed.

(** [update] and [remove] write the jobs table only, [apply] and [unapply]
    the applications table only; no method writes companies.  This holds
    whatever they are given and whether they return or throw. *)
Theorem writers_touch_one_table (id username state : value)
  (data : list (string * value)) (w : world) :
  let d := storage w in
  let after {A} (m : M A) := storage (snd (m w)) in
  (companies (after (update id data)) = companies d
   /\ applications (after (update id data)) = applications d
   /\ jobs_id_seq (after (update id data)) = jobs_id_seq d)
  /\ (companies (after (remove id)) = companies d
      /\ applications (after (remove id)) = applications d
      /\ jobs_id_seq (after (remove id)) = jobs_id_seq d)
  /\ (companies (after (Job.apply id username state)) = companies d
      /\ jobs (after (Job.apply id username state)) = jobs d
      /\ jobs_id_seq (after (Job.apply id username state)) = jobs_id_seq d)
  /\ (companies (after (unapply id username)) = companies d
      /\ jobs (after (unapply id username)) = jobs d
      /\ jobs_id_seq (after (unapply id username)) = jobs_id_seq d).
Proof.
  cbv zeta.
  unfold update, remove, Job.apply, unapply, bind, lift, sqlForPartialUpdate,
    db_query, run, ret, throw,
    update_jobs, delete_job, insert_application, delete_application.
  repeat split; repeat case_match; simplify_eq; reflexivity.
Qed.

(** Without criteria [findAll] lists every stored job, whoever the user
    is, and lists nothing that is not a stored job. *)
Theorem findAll_no_criteria_every_job (username : value) (w : world) :
  exists rows,
    fst (findAll ∅ username w) = Ok rows
    /\ (forall j, In j (jobs (storage w)) ->
          exists r, In r rows /\ row_id r = Some (j_id j)
                    /\ row_get r "title" = VStr (j_title j)
                    /\ row_get r "salary" = opt_num (j_salary j)
                    /\ row_get r "equity" = opt_num (j_equity j)
                    /\ row_get r "company_handle" = VStr (j_company_handle j))
    /\ (forall r, In r rows ->
          exists j, In j (jobs (storage w)) /\ row_id r = Some (j_id j)).
Proof.
  eexists. split; [apply findAll_no_criteria |]. split.
  - intros j Hj.
    destruct (jobs_joined_every (storage w) (text_param username) j Hj) as [c [a Hin]].
    exists (listing_row {| jr_job := j; jr_company := c; jr_app := a |}).
    split; [by apply in_map |]. by repeat split.
  - intros r Hr. apply in_map_iff in Hr as [x [<- Hx]].
    exists (jr_job x). split; [by apply jobs_joined_job in Hx | reflexivity].
Qed.

(** *** Pages *)

Lemma page_of_offset (o a : Z) : get (page_of o a) "offset" = VInt o.
Proof. reflexivity. Qed.

Lemma page_of_amt (o a : Z) : get (page_of o a) "amt" = VInt a.
Proof. reflexivity. Qed.

Lemma findSome_run (data : gmap string value) (username : value) (o a : Z) (w : world) :
  get data "offset" = VInt o -> get data "amt" = VInt a ->
  0 <= o -> 0 <= a ->
  fst (findSome data username w)
  = Ok (map listing_row
          (firstn (Z.to_nat a)
             (skipn (Z.to_nat o)
                (merge_sort by_id (jobs_joined (storage w) (text_param username))))),
        VInt (Z.of_nat (length (jobs (storage w))))).
Proof.
  intros Hoff Hamt Ho Ha.
  unfold findSome, bind, db_query, run, select_jobs_page, count_jobs.
  rewrite Hoff, Hamt.
  cbn [arity_is length Nat.eqb rbind param lookup list_lookup].
  rewrite !integer_param_VInt. cbn [rbind non_negative].
  rewrite (proj2 (Z.ltb_ge o 0) Ho), (proj2 (Z.ltb_ge a 0) Ha).
  reflexivity.
Qed.

Lemma firstn_add_split {A} (a b : nat) (l : list A) :
  firstn (a + b) l = (firstn a l ++ firstn b (skipn a l))%list.
Proof.
  revert l. induction a as [|a IH]; intros l; [reflexivity |].
  destruct l as [|x l]; cbn; [by rewrite firstn_nil | by rewrite IH].
Qed.

(** Two pages that follow each other make up the page that spans both,
    and each reports the same count. *)
Theorem findSome_pages_tile (username : value) (o a b : Z) (w : world) :
  0 <= o -> 0 <= a -> 0 <= b ->
  exists p1 p2 n,
    fst (findSome (page_of o a) username w) = Ok (p1, n)
    /\ fst (findSome (page_of (o + a) b) username w) = Ok (p2, n)
    /\ fst (findSome (page_of o (a + b)) username w) = Ok ((p1 ++ p2)%list, n).
Proof.
  intros Ho Ha Hb.
  eexists _, _, _.
  split; [apply findSome_run; auto using page_of_offset, page_of_amt |].
  split; [apply findSome_run; auto using page_of_offset, page_of_amt; lia |].
  rewrite (findSome_run _ username o (a + b) w) by
    (auto using page_of_offset, page_of_amt; lia).
  rewrite !Z2Nat.inj_add by lia.
  rewrite firstn_add_split, map_app, skipn_skipn.
  by rewrite (Nat.add_comm (Z.to_nat a)).
Qed.

(** An offset or a count below zero is refused by the storage: [findSome]
    throws that error after its first statement, the count is not asked
    for, and the storage is as before. *)
Theorem findSome_negative_rejected (data : gmap string value) (username : value)
  (o a : Z) (w : world) :
  get data "offset" = VInt o -> get data "amt" = VInt a ->
  o < 0 \/ a < 0 ->
  exists e,
    In e [NegativeOffset; NegativeLimit]
    /\ findSome data username w
       = (Err (DbError e),
          {| storage := storage w;
             issued := (issued w ++ [(SelectJobsPage, [username; VInt o; VInt a])])%list |}).
Proof.
  intros Hoff Hamt Hneg.
  unfold findSome, bind, db_query, run, select_jobs_page.
  rewrite Hoff, Hamt.
  cbn [arity_is length Nat.eqb rbind param lookup list_lookup].
  rewrite !integer_param_VInt. cbn [rbind non_negative].
  destruct (o <? 0) eqn:Eo.
  - exists NegativeOffset. split; [by left | reflexivity].
  - apply Z.ltb_ge in Eo.
    assert (Ea : (a <? 0) = true) by (apply Z.ltb_lt; lia).
    rewrite Ea. exists NegativeLimit. split; [by right; left | reflexivity].
Qed.

(** *** A partial update *)

Lemma filter_the_one {A} (f : A -> Z) (l : list A) (x : A) :
  NoDup (map f l) -> In x l ->
  List.filter (fun y => same_id (Some (f x)) (f y)) l = [x].
Proof.
  induction l as [|a l IH]; [intros _ [] |].
  cbn [map]. rewrite NoDup_cons. intros [Hnot Hnd] [-> | Hx].
  - cbn. rewrite Z.eqb_refl. f_equal. apply filter_none.
    intros y Hy. apply Z.eqb_neq. intros E. apply Hnot. rewrite <- E.
    apply list_elem_of_In, in_map, Hy.
  - cbn. destruct (f a =? f x) eqn:E.
    + exfalso. apply Z.eqb_eq in E. apply Hnot. rewrite E.
      apply list_elem_of_In, in_map, Hx.
    + by apply IH.
Qed.

Lemma NoDup_map_filter {A B} (f : A -> B) (p : A -> bool) (l : list A) :
  NoDup (map f l) -> NoDup (map f (List.filter p l)).
Proof.
  induction l as [|a l IH]; [done |].
  cbn [map List.filter]. rewrite NoDup_cons. intros [Hnot Hnd].
  destruct (p a); [| by apply IH].
  cbn [map]. apply NoDup_cons. split; [| by apply IH].
  intros Hin. apply Hnot.
  apply list_elem_of_In, in_map_iff in Hin as [y [E Hy]].
  apply filter_In in Hy as [Hy _]. rewrite <- E.
  apply list_elem_of_In, in_map, Hy.
Qed.

(** On a stored job, the constraints of the schema holding, [update] with
    a title as its only field returns the job under the new title, every
    other column as it was; the job is stored so, every other job is kept
    and the other tables are as before. *)
Theorem update_title_only (j : job) (t : string) (w : world) :
  In j (jobs (storage w)) ->
  constraints_hold (storage w) ->
  exists w',
    update (VInt (j_id j)) [("title", VStr t)] w
    = (Ok (returned_job (retitled t j)), w')
    /\ (forall j', In j' (jobs (storage w')) <->
                   j' = retitled t j
                   \/ (In j' (jobs (storage w)) /\ j_id j' <> j_id j))
    /\ companies (storage w') = companies (storage w)
    /\ applications (storage w') = applications (storage w)
    /\ jobs_id_seq (storage w') = jobs_id_seq (storage w).
Proof.
  intros Hj [Hnd [Hfk Happ]].
  set (others := List.filter (fun x => negb (same_id (Some (j_id j)) (j_id x)))
                   (jobs (storage w))).
  assert (Hothers : forall x, In x others <->
                      In x (jobs (storage w)) /\ j_id x <> j_id j).
  { intros x. unfold others. rewrite filter_In. cbn.
    by rewrite negb_true_iff, Z.eqb_neq. }
  assert (Hprep : prepare_update ["title"] [VStr t; VInt (j_id j)]
                  = Ok ([("title", CText (Some t))], Some (j_id j))).
  { unfold prepare_update.
    cbn [rmap known_job_column job_columns existsb String.eqb Ascii.eqb Bool.eqb
         orb rbind assigned_once first_repeated arity_is length Nat.eqb combine
         fst snd coerce column_type text_param param lookup list_lookup].
    rewrite bool_decide_eq_false_2 by discriminate. cbn [rbind].
    by rewrite integer_param_VInt. }
  assert (Huniq : unique_ids (others ++ [retitled t j]) = true).
  { unfold unique_ids. apply bool_decide_eq_true_2.
    rewrite map_app. apply NoDup_app. split; [by apply NoDup_map_filter |].
    split; [| apply NoDup_singleton].
    intros i Hi Hin. cbn in Hin. apply list_elem_of_singleton in Hin.
    apply list_elem_of_In, in_map_iff in Hi as [x [<- Hx]].
    apply Hothers in Hx as [_ Hne]. by apply Hne. }
  assert (Hrefs : forallb (fun a => has_job (others ++ [retitled t j]) (a_job_id a))
                    (applications (storage w)) = true).
  { apply forallb_forall. intros a Ha.
    apply Happ, has_job_in in Ha as [x [Hx Hid]].
    apply has_job_in. destruct (Z.eq_dec (j_id x) (j_id j)) as [E | E].
    - exists (retitled t j). split; [apply in_or_app; right; by left |].
      cbn. congruence.
    - exists x. split; [| exact Hid]. apply in_or_app. left. by apply Hothers. }
  eexists. split.
  - unfold update, bind, lift, sqlForPartialUpdate, db_query, run.
    cbn [map fst snd app String.eqb Ascii.eqb Bool.eqb andb].
    unfold update_jobs. rewrite Hprep.
    rewrite (filter_the_one j_id _ j Hnd Hj).
    cbn [rmap store_all store rbind fst]. fold (retitled t j). fold others.
    rewrite Huniq. cbn [negb forallb j_company_handle retitled].
    rewrite (Hfk j Hj), Hrefs. reflexivity.
  - cbn [storage with_jobs jobs companies applications jobs_id_seq].
    split; [| by repeat split].
    intros j'. rewrite in_app_iff, Hothers. cbn. intuition congruence.
Qed.

End Lifecycle.

(** ** The further properties at concrete inputs *)

Section MoreInstances.

Import Job Sample.

Lemma three_jobs_ids_distinct : NoDup (map j_id (jobs three_jobs)).
Proof. apply (bool_decide_unpack _). vm_compute. exact I. Defined.

Lemma three_jobs_constraints : constraints_hold three_jobs.
Proof.
  split; [exact three_jobs_ids_distinct |]. split.
  - intros j [<- | [<- | [<- | []]]]; reflexivity.
  - intros a [].
Defined.

Lemma findAll_text_by_presence_witness :
  let data : gmap string value := {[ "search" := VStr "dev" ]} in
  let data' : gmap string value := {[ "search" := VStr "x' OR 1=1 --" ]} in
  criteria data = criteria data'
  /\ @finalQuery (fst (@findAll_terms host data alice))
     = @finalQuery (fst (@findAll_terms host data' (VStr "bob"))).
Proof.
  intros data data'.
  assert (H1 : criteria data = criteria data') by (vm_compute; reflexivity).
  split; [exact H1 |].
  exact (@findAll_text_by_presence host data data' alice (VStr "bob") H1).
Defined.

Lemma findAll_threshold_rejected_witness :
  let data : gmap string value := {[ "max_equity" := VStr "0.5" ]} in
  let w := start three_jobs in
  (truthy (get data "min_salary") = true \/ truthy (get data "max_equity") = true)
  /\ exists c,
       In c ["min_salary"; "min_equity"]
       /\ fst (@findAll host data alice w) = Err (DbError (UndefinedColumn c))
       /\ storage (snd (@findAll host data alice w)) = storage w.
Proof.
  intros data w.
  assert (H1 : truthy (get data "min_salary") = true
               \/ truthy (get data "max_equity") = true)
    by (right; vm_compute; reflexivity).
  split; [exact H1 |].
  exact (@findAll_threshold_rejected host data alice w H1).
Defined.

Lemma findAll_search_only_witness :
  let data : gmap string value := {[ "search" := VStr "de" ]} in
  let w := start three_jobs in
  truthy (get data "min_salary") = false
  /\ truthy (get data "max_equity") = false
  /\ truthy (get data "search") = true
  /\ fst (@findAll host data alice w)
     = Ok (map listing_row
             (List.filter (@title_like host (get data "search"))
                (jobs_joined (storage w) (@text_param host alice)))).
Proof.
  intros data w.
  assert (H1 : truthy (get data "min_salary") = false) by (vm_compute; reflexivity).
  assert (H2 : truthy (get data "max_equity") = false) by (vm_compute; reflexivity).
  assert (H3 : truthy (get data "search") = true) by (vm_compute; reflexivity).
  split; [exact H1 |]. split; [exact H2 |]. split; [exact H3 |].
  exact (@findAll_search_only host data alice w H1 H2 H3).
Defined.

Lemma create_keeps_ids_sound_witness :
  let w := start three_jobs in
  let d' := storage (snd (@create host welder w)) in
  ids_sound (storage w)
  /\ ids_sound d'
  /\ companies d' = companies (storage w)
  /\ applications d' = applications (storage w)
  /\ (forall j, In j (jobs (storage w)) -> In j (jobs d')).
Proof.
  intros w d'.
  assert (H1 : ids_sound (storage w)).
  { split; [repeat constructor | exact three_jobs_ids_distinct]. }
  split; [exact H1 |].
  exact (@create_keeps_ids_sound host welder w H1).
Defined.

Lemma create_twice_distinct_witness :
  let w := start three_jobs in
  let w1 := snd (@create host welder w) in
  let w2 := snd (@create host welder w1) in
  let r1 := [("id", VInt 4); ("title", VStr "Welder"); ("salary", VInt 60000);
             ("equity", VNull); ("company_handle", VStr "acme")] in
  let r2 := [("id", VInt 5); ("title", VStr "Welder"); ("salary", VInt 60000);
             ("equity", VNull); ("company_handle", VStr "acme")] in
  @create host welder w = (Ok (Some r1), w1)
  /\ @create host welder w1 = (Ok (Some r2), w2)
  /\ exists i1 i2, row_id r1 = Some i1 /\ row_id r2 = Some i2 /\ i1 < i2.
Proof.
  intros w w1 w2 r1 r2.
  assert (H1 : @create host welder w = (Ok (Some r1), w1)) by (vm_compute; reflexivity).
  assert (H2 : @create host welder w1 = (Ok (Some r2), w2)) by (vm_compute; reflexivity).
  split; [exact H1 |]. split; [exact H2 |].
  exact (@create_twice_distinct host welder welder w w1 w2 r1 r2 H1 H2).
Defined.

Lemma create_unknown_company_witness :
  let data : gmap string value :=
    {[ "title" := VStr "Welder"; "company_handle" := VStr "initech" ]} in
  let w := start three_jobs in
  get data "company_handle" = VStr "initech"
  /\ (forall c, In c (companies (storage w)) -> c_handle c <> "initech")
  /\ exists e w',
       @create host data w = (Err (DbError e), w')
       /\ jobs (storage w') = jobs (storage w)
       /\ companies (storage w') = companies (storage w)
       /\ applications (storage w') = applications (storage w).
Proof.
  intros data w.
  assert (H1 : get data "company_handle" = VStr "initech") by (vm_compute; reflexivity).
  assert (H2 : forall c, In c (companies (storage w)) -> c_handle c <> "initech").
  { intros c [<- | []] [=]. }
  split; [exact H1 |]. split; [exact H2 |].
  exact (@create_unknown_company host data "initech" w H1 H2).
Defined.

Lemma apply_existing_job_witness :
  let w := start three_jobs in
  (exists j, In j (jobs (storage w)) /\ j_id j = 2)
  /\ (forall a, In a (applications (storage w)) ->
        ~ (a_job_id a = 2 /\ a_username a = "alice"))
  /\ exists w',
       @Job.apply host (VInt 2) (VStr "alice") (VStr "applied") w = (Ok tt, w')
       /\ applications (storage w')
          = (applications (storage w)
               ++ [@application_of host 2 "alice" (VStr "applied")])%list
       /\ List.filter (of_pair 2 "alice") (applications (storage w'))
          = [@application_of host 2 "alice" (VStr "applied")]
       /\ jobs (storage w') = jobs (storage w)
       /\ companies (storage w') = companies (storage w)
       /\ jobs_id_seq (storage w') = jobs_id_seq (storage w).
Proof.
  intros w.
  assert (H1 : exists j, In j (jobs (storage w)) /\ j_id j = 2).
  { exists (job_of 2 "Developer" 70000). split; [right; left |]; reflexivity. }
  assert (H2 : forall a, In a (applications (storage w)) ->
                 ~ (a_job_id a = 2 /\ a_username a = "alice")).
  { intros a []. }
  split; [exact H1 |]. split; [exact H2 |].
  exact (@apply_existing_job host 2 "alice" (VStr "applied") w H1 H2).
Defined.

Lemma unapply_missing_application_witness :
  let w := start three_jobs in
  (forall a, In a (applications (storage w)) ->
     ~ (a_job_id a = 2 /\ a_username a = "alice"))
  /\ @unapply host (VInt 2) (VStr "alice") w
     = (Err (JsError ("There exists no application for job '"
                      ++ @to_string host (VInt 2)) 404),
        {| storage := storage w;
           issued := (issued w ++ [(DeleteApplication, [VInt 2; VStr "alice"])])%list |}).
Proof.
  intros w.
  assert (H1 : forall a, In a (applications (storage w)) ->
                 ~ (a_job_id a = 2 /\ a_username a = "alice")).
  { intros a []. }
  split; [exact H1 |].
  exact (@unapply_missing_application host 2 "alice" w H1).
Defined.

Lemma apply_then_unapply_witness :
  let w := start three_jobs in
  (exists j, In j (jobs (storage w)) /\ j_id j = 2)
  /\ (forall a, In a (applications (storage w)) ->
        ~ (a_job_id a = 2 /\ a_username a = "alice"))
  /\ exists w1 w2,
       @Job.apply host (VInt 2) (VStr "alice") (VStr "applied") w = (Ok tt, w1)
       /\ @unapply host (VInt 2) (VStr "alice") w1 = (Ok tt, w2)
       /\ storage w2 = storage w.
Proof.
  intros w.
  assert (H1 : exists j, In j (jobs (storage w)) /\ j_id j = 2).
  { exists (job_of 2 "Developer" 70000). split; [right; left |]; reflexivity. }
  assert (H2 : forall a, In a (applications (storage w)) ->
                 ~ (a_job_id a = 2 /\ a_username a = "alice")).
  { intros a []. }
  split; [exact H1 |]. split; [exact H2 |].
  exact (@apply_then_unapply host 2 "alice" (VStr "applied") w H1 H2).
Defined.

Lemma apply_then_findUserJobs_witness :
  let w := start three_jobs in
  let j := job_of 2 "Developer" 70000 in
  In j (jobs (storage w))
  /\ (forall a, In a (applications (storage w)) ->
        ~ (a_job_id a = j_id j /\ a_username a = "alice"))
  /\ exists w1 rows r,
       @Job.apply host (VInt (j_id j)) (VStr "alice") (VStr "applied") w = (Ok tt, w1)
       /\ fst (@findUserJobs host (VStr "alice") w1) = Ok rows
       /\ In r rows
       /\ row_id r = Some (j_id j)
       /\ row_get r "title" = VStr (j_title j)
       /\ row_get r "state" = opt_str (@text_param host (VStr "applied"))
       /\ (forall r', In r' rows -> row_id r' = Some (j_id j) ->
             row_get r' "state" = opt_str (@text_param host (VStr "applied"))).
Proof.
  intros w j.
  assert (H1 : In j (jobs (storage w))) by (right; left; reflexivity).
  assert (H2 : forall a, In a (applications (storage w)) ->
                 ~ (a_job_id a = j_id j /\ a_username a = "alice")).
  { intros a []. }
  split; [exact H1 |]. split; [exact H2 |].
  exact (@apply_then_findUserJobs host j "alice" (VStr "applied") w H1 H2).
Defined.

Lemma remove_existing_job_witness :
  let w := start three_jobs in
  (exists j, In j (jobs (storage w)) /\ j_id j = 3)
  /\ (forall a, In a (applications (storage w)) -> a_job_id a <> 3)
  /\ exists w1,
       @remove host (VInt 3) w = (Ok tt, w1)
       /\ (forall j, In j (jobs (storage w1)) <->
                     In j (jobs (storage w)) /\ j_id j <> 3)
       /\ companies (storage w1) = companies (storage w)
       /\ applications (storage w1) = applications (storage w)
       /\ exists e w2, @findOne host (VInt 3) w1 = (Err e, w2) /\ not_found e.
Proof.
  intros w.
  assert (H1 : exists j, In j (jobs (storage w)) /\ j_id j = 3).
  { exists (job_of 3 "Director" 90000). split; [right; right; left |]; reflexivity. }
  assert (H2 : forall a, In a (applications (storage w)) -> a_job_id a <> 3).
  { intros a []. }
  split; [exact H1 |]. split; [exact H2 |].
  exact (@remove_existing_job host 3 w H1 H2).
Defined.

Lemma findOne_existing_witness :
  let w := start three_jobs in
  let j := job_of 2 "Developer" 70000 in
  In j (jobs (storage w))
  /\ In acme (companies (storage w))
  /\ c_handle acme = j_company_handle j
  /\ NoDup (map j_id (jobs (storage w)))
  /\ NoDup (map c_handle (companies (storage w)))
  /\ exists w',
       @findOne host (VInt (j_id j)) w
       = (Ok {| fields := job_row (j, acme); company := Some (company_row acme) |}, w')
       /\ storage w' = storage w.
Proof.
  intros w j.
  assert (H1 : In j (jobs (storage w))) by (right; left; reflexivity).
  assert (H2 : In acme (companies (storage w))) by (left; reflexivity).
  assert (H3 : c_handle acme = j_company_handle j) by reflexivity.
  assert (H4 : NoDup (map j_id (jobs (storage w)))) by exact three_jobs_ids_distinct.
  assert (H5 : NoDup (map c_handle (companies (storage w)))) by apply NoDup_singleton.
  split; [exact H1 |]. split; [exact H2 |]. split; [exact H3 |].
  split; [exact H4 |]. split; [exact H5 |].
  exact (@findOne_existing host j acme w H1 H2 H3 H4 H5).
Defined.

Lemma findSome_pages_tile_witness :
  let w := start three_jobs in
  0 <= 1
  /\ exists p1 p2 n,
       fst (@findSome host (page_of 1 1) alice w) = Ok (p1, n)
       /\ fst (@findSome host (page_of (1 + 1) 1) alice w) = Ok (p2, n)
       /\ fst (@findSome host (page_of 1 (1 + 1)) alice w) = Ok ((p1 ++ p2)%list, n).
Proof.
  intros w.
  assert (H1 : 0 <= 1) by discriminate.
  split; [exact H1 |].
  exact (@findSome_pages_tile host alice 1 1 1 w H1 H1 H1).
Defined.

Lemma findSome_negative_rejected_witness :
  let w := start three_jobs in
  let data := page_of (-1) 5 in
  get data "offset" = VInt (-1)
  /\ get data "amt" = VInt 5
  /\ (-1 < 0 \/ 5 < 0)
  /\ exists e,
       In e [NegativeOffset; NegativeLimit]
       /\ @findSome host data alice w
          = (Err (DbError e),
             {| storage := storage w;
                issued := (issued w
                             ++ [(SelectJobsPage, [alice; VInt (-1); VInt 5])])%list |}).
Proof.
  intros w data.
  assert (H1 : get data "offset" = VInt (-1)) by reflexivity.
  assert (H2 : get data "amt" = VInt 5) by reflexivity.
  assert (H3 : -1 < 0 \/ 5 < 0) by (left; reflexivity).
  split; [exact H1 |]. split; [exact H2 |]. split; [exact H3 |].
  exact (@findSome_negative_rejected host data alice (-1) 5 w H1 H2 H3).
Defined.

Lemma update_title_only_witness :
  let w := start three_jobs in
  let j := job_of 2 "Developer" 70000 in
  In j (jobs (storage w))
  /\ constraints_hold (storage w)
  /\ exists w',
       @update host (VInt (j_id j)) [("title", VStr "Engineer")] w
       = (Ok (returned_job (retitled "Engineer" j)), w')
       /\ (forall j', In j' (jobs (storage w')) <->
                      j' = retitled "Engineer" j
                      \/ (In j' (jobs (storage w)) /\ j_id j' <> j_id j))
       /\ companies (storage w') = companies (storage w)
       /\ applications (storage w') = applications (storage w)
       /\ jobs_id_seq (storage w') = jobs_id_seq (storage w).
Proof.
  intros w j.
  assert (H1 : In j (jobs (storage w))) by (right; left; reflexivity).
  assert (H2 : constraints_hold (storage w)) by exact three_jobs_constraints.
  split; [exact H1 |]. split; [exact H2 |].
  exact (@update_title_only host j "Engineer" w H1 H2).
Defined.

End MoreInstances.
